(** * Proxy_JA4_Proj: a shallow embedding of the CA bootstrap, the
    packet-capture driver and the proxy test matrix.

    Sources:
    - src/tests/test_all_proxies.py  (module [TestAllProxies])
    - src/tests/install_proxy_cas.py (module [InstallProxyCAs])
    - src/scripts/capture.py         (module [Capture])

    External effects (subprocesses, the clock, the X.509 parser, random key
    generation) are oracles held in an environment record; the file system
    is an explicit state threaded through a small state/exception monad. *)

From Stdlib Require Import ZArith Lia Bool List String Ascii.
From stdpp Require Import base gmap sets list strings.

Set Warnings "-register-all".
Open Scope string_scope.
Local Open Scope Z_scope.

(** ** A state and exception monad for Python code *)
Module Py.

(** Either a normal return value or a raised exception (its message). *)
Inductive res (A : Type) : Type :=
| Ok (a : A)
| Exc (msg : string).
Arguments Ok {A} a.
Arguments Exc {A} msg.

Definition M (S A : Type) : Type := S -> res A * S.

Definition ret {S A} (a : A) : M S A := fun s => (Ok a, s).

Definition bind {S A B} (m : M S A) (k : A -> M S B) : M S B :=
  fun s => match m s with
           | (Ok a, s') => k a s'
           | (Exc e, s') => (Exc e, s')
           end.

Definition raise {S A} (e : string) : M S A := fun s => (Exc e, s).

(** [try: m except Exception as e: h e] *)
Definition try_except {S A} (m : M S A) (h : string -> M S A) : M S A :=
  fun s => match m s with
           | (Ok a, s') => (Ok a, s')
           | (Exc e, s') => h e s'
           end.

Definition modify {S} (f : S -> S) : M S unit := fun s => (Ok tt, f s).
Definition gets {S A} (f : S -> A) : M S A := fun s => (Ok (f s), s).

Module Notations.
Notation "'let*' x ':=' c1 'in' c2" := (bind c1 (fun x => c2))
  (at level 200, x name, c1 at level 100, c2 at level 200).
End Notations.

End Py.

(** ** src/tests/test_all_proxies.py *)
Module TestAllProxies.
Import Py.

(** JSON values, as written by [json.dump]. *)
Inductive json : Type :=
| JNull
| JBool (b : bool)
| JInt (z : Z)
| JStr (s : string)
| JList (l : list json)
| JObj (kvs : list (string * json)).

(** [d[k]] on a JSON object (keys of a Python dict are unique, so the
    first binding is the only one). *)
Definition field (k : string) (j : json) : option json :=
  match j with
  | JObj kvs =>
      match List.find (fun kv => String.eqb (fst kv) k) kvs with
      | Some (_, v) => Some v
      | None => None
      end
  | _ => None
  end.

Definition has_field (k : string) (j : json) : bool :=
  match field k j with Some _ => true | None => false end.

(** Python truthiness of [r["success"]]. *)
Definition success_of (r : json) : bool :=
  match field "success" r with Some (JBool b) => b | _ => false end.

(** A proxy profile: [{"name", "env", "proxy_env", "description"}]; a
    profile without a [proxy_env] key has [p_proxy_env = None]. *)
Record profile : Type := mkProfile {
  p_name : string;
  p_env : option (list (string * string));
  p_proxy_env : option (list (string * string));
  p_description : string
}.

Definition TEST_HOSTS : list string :=
  ["http://httpbin.org/get"; "https://httpbin.org/get";
   "http://example.com"; "https://example.com"].

Definition PROXIES : list profile :=
  [mkProfile "direct" None (Some []) "Direct connection (no proxy)";
   mkProfile "squid"
     (Some [("http_proxy", "http://squid_poc:3128");
            ("https_proxy", "http://squid_poc:3128")])
     None "Squid proxy with SSL bump";
   mkProfile "mitmproxy"
     (Some [("http_proxy", "http://mitmproxy_poc:8080");
            ("https_proxy", "http://mitmproxy_poc:8080")])
     None "mitmproxy with TLS interception"].

(** What [subprocess.run(curl ...)] did: it completed with an exit status
    and captured stderr, or it raised (e.g. curl is not installed). *)
Inductive curl_outcome : Type :=
| Completed (rc : Z) (stderr : string)
| Raised (msg : string).

(** The outside world seen by the test driver. *)
Record env : Type := mkEnv {
  (** result of curl for the proxy overrides passed (None: inherit the
      parent environment) and the target URL *)
  curl : option (list (string * string)) -> string -> curl_outcome;
  (** [datetime.now().isoformat()] when the entry for (proxy, url) is
      recorded *)
  now_iso : string -> string -> string;
  (** [datetime.now().isoformat()] when the report is written *)
  report_time : string;
  (** whether creating [captures/] and writing the report succeed *)
  report_write_ok : bool
}.

(** [port_mapping[proxy_name]] in [test_proxy]; a missing key raises. *)
Definition port_mapping (name : string) : option Z :=
  if String.eqb name "squid" then Some 3129
  else if String.eqb name "mitmproxy" then Some 8081
  else None.

(** [proxy_config.get("env")] is truthy: [None] and [{}] are falsy. *)
Definition env_truthy (e : option (list (string * string))) : bool :=
  match e with Some (_ :: _) => true | _ => false end.

(** The overrides curl runs with: [env=env if proxy_config.get("env")
    else None]. *)
Definition request_env (cfg : profile) : option (list (string * string)) :=
  if env_truthy (p_env cfg) then p_env cfg else None.

Section Driver.
Variable E : env.

(** One iteration of the [for host in TEST_HOSTS] loop. *)
Definition test_entry (cfg : profile) (host : string) : json :=
  let name := p_name cfg in
  match curl E (request_env cfg) host with
  | Completed rc err =>
      let success := Z.eqb rc 0 in
      JObj [("proxy", JStr name); ("url", JStr host);
            ("success", JBool success); ("return_code", JInt rc);
            ("stderr", if success then JNull else JStr err);
            ("timestamp", JStr (now_iso E name host))]
  | Raised msg =>
      JObj [("proxy", JStr name); ("url", JStr host);
            ("success", JBool false); ("error", JStr msg);
            ("timestamp", JStr (now_iso E name host))]
  end.

(** [test_proxy(proxy_config)]: the health check only logs, but looking
    up the port of a profile that is neither [direct] nor a known proxy
    raises [KeyError] (outside the per-host [try]). *)
Definition test_proxy (hosts : list string) (cfg : profile)
  : option (list json) :=
  if String.eqb (p_name cfg) "direct" then Some (map (test_entry cfg) hosts)
  else match port_mapping (p_name cfg) with
       | Some _ => Some (map (test_entry cfg) hosts)
       | None => None
       end.

(** The [for proxy_config in PROXIES] loop with [all_results.extend]. *)
Fixpoint collect (hosts : list string) (ps : list profile)
  : option (list json) :=
  match ps with
  | [] => Some []
  | p :: ps' =>
      match test_proxy hosts p with
      | None => None
      | Some rs =>
          match collect hosts ps' with
          | None => None
          | Some rest => Some (rs ++ rest)%list
          end
      end
  end.

Definition count_success (rs : list json) : nat :=
  length (List.filter success_of rs).

Definition count_failed (rs : list json) : nat :=
  length (List.filter (fun r => negb (success_of r)) rs).

Definition kvs_json (kvs : list (string * string)) : json :=
  JObj (map (fun kv => (fst kv, JStr (snd kv))) kvs).

(** A profile as [json.dump] writes it, keys in insertion order. *)
Definition profile_json (p : profile) : json :=
  JObj ([("name", JStr (p_name p));
         ("env", match p_env p with
                 | None => JNull
                 | Some kvs => kvs_json kvs
                 end)] ++
        match p_proxy_env p with
        | None => []
        | Some kvs => [("proxy_env", kvs_json kvs)]
        end ++
        [("description", JStr (p_description p))])%list.

(** [run_all_tests()]: [None] when it raises. Returns the report that is
    written to [captures/comprehensive_test_results.json] together with
    [all_results]. *)
Definition run_all_tests (ps : list profile) (hosts : list string)
  : option (json * list json) :=
  match collect hosts ps with
  | None => None
  | Some all_results =>
      if report_write_ok E then
        Some (JObj [("test_run",
                      JObj [("timestamp", JStr (report_time E));
                            ("total_proxies", JInt (Z.of_nat (length ps)));
                            ("total_tests", JInt (Z.of_nat (length all_results)));
                            ("successful_tests",
                               JInt (Z.of_nat (count_success all_results)))]);
                    ("proxy_configs", JList (map profile_json ps));
                    ("test_hosts", JList (map JStr hosts));
                    ("results", JList all_results)],
              all_results)
      else None
  end.

(** [main()] and the process exit status it leads to. *)
Definition main (argv : list string) (ps : list profile) (hosts : list string)
  : Z :=
  match argv with
  | "--help" :: _ => 0
  | _ =>
      match run_all_tests ps hosts with
      | None => 1
      | Some (_, results) =>
          if (0 <? count_failed results)%nat then 1 else 0
      end
  end.

End Driver.

(** The [successful_tests] field of a written report. *)
Definition report_successful (rep : json) : option json :=
  match field "test_run" rep with
  | Some tr => field "successful_tests" tr
  | None => None
  end.

Definition report_total (rep : json) : option json :=
  match field "test_run" rep with
  | Some tr => field "total_tests" tr
  | None => None
  end.


(** [r["proxy"] == proxy_name] in the overall summary of [run_all_tests]. *)
Definition proxy_is (name : string) (r : json) : bool :=
  match field "proxy" r with Some (JStr n) => String.eqb n name | _ => false end.

(** Lines 177-182: the [success_count/total_count] logged for one proxy
    in the overall summary, computed from [all_results]. *)
Definition proxy_summary (proxy_name : string) (all_results : list json) : nat * nat :=
  let proxy_results := List.filter (proxy_is proxy_name) all_results in
  (count_success proxy_results, length proxy_results).

End TestAllProxies.


(** ** Python's [strip()] and [replace()] *)
Module PyStr.

(** [bytes.isspace] on one byte: space, \t, \n, \v, \f, \r. *)
Definition is_bytes_space (c : ascii) : bool :=
  let n := nat_of_ascii c in
  (Nat.eqb n 32 || (Nat.leb 9 n && Nat.leb n 13))%bool.

(** [str.isspace] on a character of decoded text (a code point below
    256; no code point above 255 occurs in the model): \t to \r, \x1c to
    \x1f, space, \x85 and \xa0. *)
Definition is_str_space (c : ascii) : bool :=
  let n := nat_of_ascii c in
  (Nat.eqb n 32 || (Nat.leb 9 n && Nat.leb n 13) || (Nat.leb 28 n && Nat.leb n 31) ||
   Nat.eqb n 133 || Nat.eqb n 160)%bool.

Fixpoint lstrip_by (sp : ascii -> bool) (s : string) : string :=
  match s with
  | EmptyString => EmptyString
  | String c s' => if sp c then lstrip_by sp s' else s
  end.

(** [rev_str s acc] is the reverse of [s] followed by [acc]. *)
Fixpoint rev_str (s : string) (acc : string) : string :=
  match s with
  | EmptyString => acc
  | String c s' => rev_str s' (String c acc)
  end.

Definition strip_by (sp : ascii -> bool) (s : string) : string :=
  rev_str (lstrip_by sp (rev_str (lstrip_by sp s) EmptyString)) EmptyString.

(** [bytes.strip()] and [str.strip()] with no argument. *)
Definition bytes_strip : string -> string := strip_by is_bytes_space.
Definition str_strip : string -> string := strip_by is_str_space.

(** [s.replace(old, new)] for one-character [old] and [new]. *)
Fixpoint replace_char (old new : ascii) (s : string) : string :=
  match s with
  | EmptyString => EmptyString
  | String c s' => String (if Ascii.eqb c old then new else c) (replace_char old new s')
  end.

(** The lines of a text, each ended by \n. *)
Definition NL : string := String "010" EmptyString.

Fixpoint lines (ls : list string) : string :=
  match ls with
  | [] => EmptyString
  | l :: ls' => l ++ NL ++ lines ls'
  end.

End PyStr.

(** ** src/tests/install_proxy_cas.py *)
Module InstallProxyCAs.
Import Py Py.Notations.

(** Observable calls of the bootstrap, in the order they happen: an
    [install_ca] call with the name it installs under and its result, and
    an invocation of [update-ca-certificates]. *)
Inductive event : Type :=
| EvInstall (name : string) (ok : bool)
| EvRefresh.

(** The file system: regular files with their bytes, directories, the
    lines appended to the log file [LOGFILE] (kept apart from [files],
    timestamps omitted), the paths opened for writing (in order) and the
    trace of observable calls. A path is the string the script builds. *)
Record fs : Type := mkFs {
  files : gmap string string;
  dirs : gset string;
  logs : list string;
  writes : list string;
  events : list event
}.

(** The outside world. *)
Record ienv : Type := mkIEnv {
  mkdir_ok : string -> bool;        (* [os.makedirs(p)] succeeds *)
  open_ok : string -> bool;         (* [open(p, "w"/"wb")] succeeds; it truncates [p] *)
  write_ok : string -> bool;        (* the [f.write] into [p] that follows completes *)
  partial_len : string -> nat;      (* bytes of a failed write that reached [p] *)
  read_ok : string -> bool;         (* [open(p, "rb")] of a regular file succeeds
                                       ([False]: [PermissionError]) *)
  log_ok : bool;                    (* [open(LOGFILE, "a")] and its write succeed
                                       when [LOGDIR] is a directory *)
  keygen_ok : bool;                 (* key generation and signing succeed *)
  new_key_pem : string;             (* PEM of the freshly generated key *)
  new_cert_pem : string;            (* PEM of the freshly signed certificate *)
  load_pem_ok : string -> bool;     (* [x509.load_pem_x509_certificate] accepts *)
  is_linux : bool;                  (* [platform.system() == "Linux"] *)
  waited : string -> bool;          (* outcome of the polling loop of
                                       [wait_for_file(p)] (see [WaitForFile]) *)
  refresh_rc : option Z;            (* exit status of [update-ca-certificates];
                                       [None]: the binary is missing (raises) *)
  refresh_files : gmap string string -> gmap string string
                                    (* the files after [update-ca-certificates]
                                       ran (it rewrites /etc/ssl/certs) *)
}.

(** [os.path.join(a, b)] for a relative [b] *)
Definition join (a b : string) : string := a ++ "/" ++ b.

(** [os.path.basename(p)]: the part after the last [/]. *)
Fixpoint basename_acc (p acc : string) : string :=
  match p with
  | EmptyString => acc
  | String c p' => if Ascii.eqb c "/"%char then basename_acc p' EmptyString
                   else basename_acc p' (acc ++ String c EmptyString)
  end.
Definition basename (p : string) : string := basename_acc p EmptyString.

(** The literal written to [squid_no_ssl.conf] (lines 52-65). *)
Definition SQUID_CONF : string :=
  PyStr.lines
    ["# Squid configuration for basic HTTP proxy";
     "http_port 3128";
     "";
     "# Basic logging";
     "access_log /var/log/squid/access.log";
     "cache_log /var/log/squid/cache.log";
     "";
     "# Cache settings";
     "cache_mem 256 MB";
     "maximum_object_size 4096 KB";
     "";
     "# Allow all requests";
     "http_access allow all"].

Definition TRUST_DIR : string := "/usr/local/share/ca-certificates".
Definition MITM_CA_PATH : string := "/mitm_ca/mitmproxy-ca-cert.pem".
Definition SQUID_CA_PATH : string := "/shared_ca_cert.pem".

Section Script.
Variable PROJECT_ROOT : string.
Variable E : ienv.

Definition LOGDIR : string := join PROJECT_ROOT "logs".
Definition LOGFILE : string := join LOGDIR "install_proxy_cas.log".
Definition SHARED_CA_DIR : string :=
  join (join (join PROJECT_ROOT "configs") "squid") "runtime".
Definition CA_KEY : string := join SHARED_CA_DIR "proxy-ca.key.pem".
Definition CA_CERT : string := join SHARED_CA_DIR "proxy-ca.cert.pem".

(** [os.path.exists]: a file or a directory. *)
Definition path_exists (p : string) (s : fs) : bool :=
  match files s !! p with
  | Some _ => true
  | None => bool_decide (p ∈ dirs s)
  end.

Definition exists_ (p : string) : M fs bool := gets (path_exists p).

Definition makedirs (p : string) : M fs unit :=
  if mkdir_ok E p
  then modify (fun s => mkFs (files s) ({[p]} ∪ dirs s) (logs s) (writes s) (events s))
  else raise ("OSError: cannot create " ++ p).

(** [with open(LOGFILE, "a") as f: f.write(...)]: opening fails unless
    [LOGDIR] is a directory (e.g. when it is a regular file). *)
Definition append_log (msg : string) : M fs unit :=
  fun s => if (bool_decide (LOGDIR ∈ dirs s) && log_ok E)%bool
           then (Ok tt, mkFs (files s) (dirs s) (logs s ++ [msg])%list (writes s) (events s))
           else (Exc ("OSError: cannot open " ++ LOGFILE), s).

(** [log(msg)] (lines 21-26). *)
Definition log (msg : string) : M fs unit :=
  let* e := exists_ LOGDIR in
  let* _ := (if e then ret tt else makedirs LOGDIR) in
  append_log msg.

Definition emit (e : event) : M fs unit :=
  modify (fun s => mkFs (files s) (dirs s) (logs s) (writes s) (events s ++ [e])%list).

Definition set_file (p c : string) : M fs unit :=
  modify (fun s => mkFs (<[p := c]> (files s)) (dirs s) (logs s) (writes s) (events s)).

(** [with open(p, "w"/"wb") as f: f.write(c)]: opening truncates [p];
    a failed write leaves the first [partial_len E p] bytes of [c]. *)
Definition write_file (p c : string) : M fs unit :=
  if open_ok E p then
    let* _ := modify (fun s => mkFs (<[p := EmptyString]> (files s)) (dirs s) (logs s)
                                    (writes s ++ [p])%list (events s)) in
    if write_ok E p then set_file p c
    else let* _ := set_file p (substring 0 (partial_len E p) c) in
         raise ("OSError: cannot write " ++ p)
  else raise ("OSError: cannot open " ++ p).

(** [open(p, "rb").read()] *)
Definition read_file (p : string) : M fs string :=
  fun s => match files s !! p with
           | Some c => if read_ok E p then (Ok c, s)
                       else (Exc ("PermissionError: " ++ p), s)
           | None => (Exc ((if bool_decide (p ∈ dirs s) then "IsADirectoryError: "
                            else "FileNotFoundError: ") ++ p), s)
           end.

(** [shutil.copy(src, dst)]: into [dst/basename(src)] when [dst] is a
    directory; the same path raises [SameFileError]. *)
Definition copy_file (src dst : string) : M fs unit :=
  fun s =>
    let dst' := if bool_decide (dst ∈ dirs s) then join dst (basename src) else dst in
    (if String.eqb src dst' then raise ("SameFileError: " ++ src)
     else let* data := read_file src in write_file dst' data) s.

(** The [for directory in directories_to_create] loop. *)
Fixpoint ensure_dirs (ds : list string) : M fs bool :=
  match ds with
  | [] => ret true
  | d :: ds' =>
      let* e := exists_ d in
      if e then ensure_dirs ds'
      else
        let* ok := try_except
                     (let* _ := makedirs d in
                      let* _ := log ("Created directory: " ++ d) in ret true)
                     (fun err => let* _ := log ("ERROR: Could not create directory " ++ d ++ ": " ++ err) in
                                 ret false) in
        if ok then ensure_dirs ds' else ret false
  end.

Definition ensure_directories_and_files : M fs bool :=
  let* ok := ensure_dirs [SHARED_CA_DIR;
                          join (join (join PROJECT_ROOT "configs") "squid") "runtime";
                          join (join (join PROJECT_ROOT "configs") "mitmproxy") "runtime";
                          join PROJECT_ROOT "logs";
                          join PROJECT_ROOT "captures"] in
  if negb ok then ret false
  else
    let squid_conf_path :=
      join (join (join (join PROJECT_ROOT "configs") "squid") "runtime") "squid_no_ssl.conf" in
    let* e := exists_ squid_conf_path in
    if e then ret true
    else try_except
           (let* _ := write_file squid_conf_path SQUID_CONF in
            let* _ := log ("Created squid configuration file: " ++ squid_conf_path) in
            ret true)
           (fun err => let* _ := log ("ERROR: Could not create squid configuration file: " ++ err) in
                       ret false).

Definition generate_ca : M fs unit :=
  let* ok := ensure_directories_and_files in
  if negb ok then log "ERROR: Failed to create necessary directories and files"
  else
    let* k := exists_ CA_KEY in
    let* c := exists_ CA_CERT in
    if negb (k && c) then
      let* _ := log "Generating new CA key and certificate using cryptography..." in
      try_except
        (let* _ := (if keygen_ok E then ret tt else raise "key generation failed") in
         let* _ := write_file CA_KEY (new_key_pem E) in
         let* _ := write_file CA_CERT (new_cert_pem E) in
         let* _ := log ("Generated CA key: " ++ CA_KEY) in
         log ("Generated CA cert: " ++ CA_CERT))
        (fun err => log ("ERROR: Failed to generate CA key/cert: " ++ err))
    else log "CA key and certificate already exist.".

(** [install_ca(src, dst_name)]; [shutil.copy] is outside any [try]. *)
Definition install_ca (src dst_name : string) : M fs bool :=
  let* e := exists_ src in
  if e then
    let* d := exists_ TRUST_DIR in
    let* ok := (if d then ret true
                else try_except (let* _ := makedirs TRUST_DIR in ret true)
                       (fun err => let* _ := log ("Failed to create " ++ TRUST_DIR ++ ": " ++ err) in
                                   ret false)) in
    if ok then
      let dst := join TRUST_DIR dst_name in
      let* _ := copy_file src dst in
      let* _ := log ("Copied " ++ src ++ " to " ++ dst) in
      ret true
    else ret false
  else
    let* _ := log ("CA candidate not found: " ++ src) in
    ret false.

Definition is_valid_pem_cert (cert_path : string) : M fs bool :=
  let* e := exists_ cert_path in
  if negb e then ret false
  else try_except
         (let* data := read_file cert_path in
          if String.eqb (PyStr.bytes_strip data) EmptyString then ret false
          else if load_pem_ok E data then ret true
          else raise "ValueError: unable to load PEM certificate")
         (fun err => let* _ := log ("PEM certificate validation failed for " ++ cert_path ++ ": " ++ err) in
                     ret false).

(** [wait_for_file(p)] as [auto_install_all_cas] sees it: its log lines
    around a polling loop (modelled in [WaitForFile]) whose outcome is
    [waited E p]. *)
Definition wait_for (p : string) : M fs bool :=
  let* _ := log ("Waiting for " ++ p ++ "...") in
  if waited E p then let* _ := log ("Found " ++ p) in ret true
  else let* _ := log ("Timeout waiting for " ++ p) in ret false.

(** An [install_ca] call, recorded in the trace with its result. *)
Definition call_install (src dst_name : string) : M fs bool :=
  let* r := install_ca src dst_name in
  let* _ := emit (EvInstall dst_name r) in
  ret r.

(** [update-ca-certificates] running: its effect on the files. *)
Definition run_refresh : M fs unit :=
  modify (fun s => mkFs (refresh_files E (files s)) (dirs s) (logs s) (writes s) (events s)).

(** [subprocess.run(["update-ca-certificates"], check=True)] inside the
    [try] of [auto_install_all_cas]: only [CalledProcessError] is caught. *)
Definition refresh_checked : M fs unit :=
  let* _ := emit EvRefresh in
  match refresh_rc E with
  | None => raise "FileNotFoundError: update-ca-certificates"
  | Some rc =>
      let* _ := run_refresh in
      if Z.eqb rc 0 then log "CA certificates updated successfully"
      else log "Failed to update CA certificates: CalledProcessError"
  end.

(** [subprocess.run(["update-ca-certificates"])] of step 2: the exit
    status is ignored. *)
Definition refresh_unchecked : M fs unit :=
  let* _ := emit EvRefresh in
  match refresh_rc E with
  | None => raise "FileNotFoundError: update-ca-certificates"
  | Some _ => let* _ := run_refresh in log "CA certificates updated."
  end.

Definition install_sibling (path name label : string) : M fs unit :=
  let* w := wait_for path in
  if w then
    let* r := call_install path name in
    if r then log (label ++ " CA certificate installed successfully")
    else log ("Failed to install " ++ label ++ " CA certificate")
  else log (label ++ " CA certificate not found within timeout").

Definition auto_install_all_cas : M fs unit :=
  let* _ := log "Starting automatic CA certificate installation..." in
  let* _ := install_sibling MITM_CA_PATH "mitmproxy-ca.crt" "mitmproxy" in
  let* _ := install_sibling SQUID_CA_PATH "squid-ca.crt" "Squid" in
  let* _ := (if is_linux E then refresh_checked else ret tt) in
  log "Automatic CA installation complete!".

(** The module-level script, run with [--auto] or without; [print]
    calls and the leading emoji of the manual-mode lines are left out. In
    automatic mode it then sleeps forever; the model stops there. *)
Definition script (auto : bool) : M fs unit :=
  let* _ := generate_ca in
  let* c := exists_ CA_CERT in
  let* k := exists_ CA_KEY in
  let* _ := (if negb (c && k) then
               log ("ERROR: CA certificate or key not found in " ++ SHARED_CA_DIR ++
                    ". Check directory permissions and rerun this script.")
             else let* v := is_valid_pem_cert CA_CERT in
                  if v then log ("CA certificate " ++ CA_CERT ++ " is valid.")
                  else log ("ERROR: CA certificate " ++ CA_CERT ++
                            " is missing or invalid. Squid will fail to start.")) in
  let* _ := (if is_linux E then
               let* r := call_install CA_CERT "proxy-ja4-ca.crt" in
               if r then refresh_unchecked
               else log "No CA certificate found to install."
             else log "Skipping CA installation on Windows. This will be handled in the container.") in
  if auto then
    let* _ := log "Running in automatic mode - waiting for proxy CA certificates..." in
    let* _ := auto_install_all_cas in
    log "CA installation complete. Container ready for testing."
  else
    let* _ := log "Running in manual mode - verifying CA files..." in
    let* c' := exists_ CA_CERT in
    let* k' := exists_ CA_KEY in
    if c' && k' then
      let* _ := log "CA files generated successfully:" in
      let* _ := log ("   Key: " ++ CA_KEY) in
      let* _ := log ("   Cert: " ++ CA_CERT) in
      log "Ready to start containers!"
    else
      let* _ := log "CA files missing. Expected:" in
      let* _ := log ("   Key: " ++ CA_KEY) in
      let* _ := log ("   Cert: " ++ CA_CERT) in
      log "Please check the generate_ca() function output above.".

End Script.

End InstallProxyCAs.

(** ** [wait_for_file] of src/tests/install_proxy_cas.py: the log lines
    and the polling loop against the wall clock. *)
Module WaitForFile.
Import Py Py.Notations InstallProxyCAs.

(** [time.sleep(2)], in milliseconds. *)
Definition POLL_MS : Z := 2000.

Section Poll.
Variable PROJECT_ROOT : string.
Variable E : ienv.
Variable file_path : string.
(** [os.path.exists(file_path)] at time [t] (milliseconds): the file is
    created, if ever, by another container. *)
Variable exists_at : Z -> bool.
(** [start_time = time.time()], read after the first log line. *)
Variable t0 : Z.
(** The time of the [j]-th check [os.path.exists(file_path)]. *)
Variable t_check : nat -> Z.
(** The reading of [time.time()] in the body after the [j]-th check. *)
Variable t_read : nat -> Z.
(** [max_wait], in seconds. *)
Variable max_wait : Z.

(** The [while] loop: the result and the index of the last check;
    [fuel] bounds the number of sleeps (the termination theorem gives
    enough). *)
Fixpoint wait_loop (fuel j : nat) : option (bool * nat) :=
  if exists_at (t_check j) then Some (true, j)
  else if t_read j - t0 >? max_wait * 1000 then Some (false, j)
  else match fuel with
       | O => None
       | S f => wait_loop f (S j)
       end.

(** [wait_for_file(file_path, max_wait)] with its three [log] calls;
    [None] when [fuel] runs out. *)
Definition wait_for_file (fuel : nat) : M fs (option (bool * nat)) :=
  let* _ := log PROJECT_ROOT E ("Waiting for " ++ file_path ++ "...") in
  match wait_loop fuel 0 with
  | None => ret None
  | Some (true, k) =>
      let* _ := log PROJECT_ROOT E ("Found " ++ file_path) in
      ret (Some (true, k))
  | Some (false, k) =>
      let* _ := log PROJECT_ROOT E ("Timeout waiting for " ++ file_path) in
      ret (Some (false, k))
  end.

End Poll.

End WaitForFile.

(** ** src/scripts/capture.py *)
Module Capture.
Import Py Py.Notations.

(** Local file system (paths as the script spells them), the commands
    run (in order) and the lines appended to [LOGFILE] (timestamps
    omitted; the [print] echo is not modelled). *)
Record cfs : Type := mkCfs {
  cfiles : gmap string string;
  cdirs : gset string;
  cmds : list (list string);
  clogs : list string
}.

(** [datetime.now()] *)
Record datetime : Type := mkDatetime {
  year : Z; month : Z; day : Z; hour : Z; minute : Z; second : Z
}.

(** A clock reading with a four-digit year and in-range fields. *)
Definition valid_datetime (t : datetime) : Prop :=
  1000 <= year t <= 9999 /\ 1 <= month t <= 12 /\ 1 <= day t <= 31 /\
  0 <= hour t <= 23 /\ 0 <= minute t <= 59 /\ 0 <= second t <= 59.

(** What [subprocess.run(cmd, ...)] gives: a completed process, or the
    exception it raises (e.g. [FileNotFoundError] when [docker] is not
    installed). *)
Inductive proc_result : Type :=
| Ran (stdout stderr : string) (rc : Z)
| RunError (msg : string).

(** The outside world. *)
Record cenv : Type := mkCEnv {
  docker : list string -> proc_result;
  (** the local files and directories after [docker cp src dst] ran,
      from [src], [dst] and the files and directories before *)
  docker_cp : string -> string -> gmap string string -> gset string ->
              gmap string string * gset string;
  cmkdir_ok : string -> bool;       (* [os.makedirs(p)] succeeds *)
  copen_ok : string -> bool;        (* [open(p, "w")] succeeds; it truncates [p] *)
  cwrite_ok : string -> bool;       (* the [f.write] into [p] that follows completes *)
  cpartial_len : string -> nat;     (* characters of a failed write that reached [p] *)
  clog_ok : bool;                   (* [open(LOGFILE, "a")] and its write succeed
                                       when [LOGDIR] is a directory *)
  cdir_size : string -> Z;          (* [os.path.getsize] of a directory *)
  project_root : string;            (* [dirname(dirname(abspath(__file__)))] *)
  now : datetime;                   (* [datetime.now()] *)
  now_valid : valid_datetime now
}.

Definition CAPTURES_DIR : string := "./captures".
Definition CURRENT_CAPTURE : string := CAPTURES_DIR ++ "/.current_capture".

Definition PS_CMD : list string := ["docker"; "ps"; "-q"; "-f"; "name=capture_poc"].
Definition cp_cmd (pcap_name : string) : list string :=
  ["docker"; "cp"; "capture_poc:/captures/" ++ pcap_name; CAPTURES_DIR ++ "/" ++ pcap_name].

(** [strftime] fields: [%Y] is the decimal year, the others two digits. *)
Definition digit (d : Z) : ascii := ascii_of_nat (48 + Z.to_nat d).

Fixpoint dec_aux (fuel : nat) (n : Z) (acc : string) : string :=
  match fuel with
  | O => acc
  | S f => let acc' := String (digit (n mod 10)) acc in
           if n <? 10 then acc' else dec_aux f (n / 10) acc'
  end.

Definition dec (n : Z) : string := dec_aux 10 n EmptyString.

Definition pad2 (n : Z) : string :=
  String (digit (n / 10)) (String (digit (n mod 10)) EmptyString).

(** [datetime.now().strftime("%Y%m%d_%H%M%S")] *)
Definition strftime_stamp (t : datetime) : string :=
  dec (year t) ++ pad2 (month t) ++ pad2 (day t) ++ "_" ++
  pad2 (hour t) ++ pad2 (minute t) ++ pad2 (second t).

(** Text-mode reading translates \r\n and a lone \r into \n. *)
Fixpoint univ_newlines (s : string) : string :=
  match s with
  | EmptyString => EmptyString
  | String c s' =>
      if Ascii.eqb c "013"%char then
        match s' with
        | String d s'' =>
            if Ascii.eqb d "010"%char then String "010"%char (univ_newlines s'')
            else String "010"%char (univ_newlines s')
        | EmptyString => String "010"%char EmptyString
        end
      else String c (univ_newlines s')
  end.

Section Script.
Variable E : cenv.

Definition LOGDIR : string := project_root E ++ "/logs".
Definition LOGFILE : string := LOGDIR ++ "/capture.log".

Definition path_exists (p : string) (s : cfs) : bool :=
  match cfiles s !! p with
  | Some _ => true
  | None => bool_decide (p ∈ cdirs s)
  end.

Definition exists_ (p : string) : M cfs bool := gets (path_exists p).

Definition makedirs (p : string) : M cfs unit :=
  if cmkdir_ok E p
  then modify (fun s => mkCfs (cfiles s) ({[p]} ∪ cdirs s) (cmds s) (clogs s))
  else raise ("OSError: cannot create " ++ p).

(** [with open(LOGFILE, "a") as f: f.write(...)]: opening fails unless
    [LOGDIR] is a directory (e.g. when it is a regular file). *)
Definition append_log (msg : string) : M cfs unit :=
  fun s => if (bool_decide (LOGDIR ∈ cdirs s) && clog_ok E)%bool
           then (Ok tt, mkCfs (cfiles s) (cdirs s) (cmds s) (clogs s ++ [msg])%list)
           else (Exc ("OSError: cannot open " ++ LOGFILE), s).

(** [log(msg)] (lines 13-19). *)
Definition log (msg : string) : M cfs unit :=
  let* e := exists_ LOGDIR in
  let* _ := (if e then ret tt else makedirs LOGDIR) in
  append_log msg.

Definition set_cfile (p c : string) : M cfs unit :=
  modify (fun s => mkCfs (<[p := c]> (cfiles s)) (cdirs s) (cmds s) (clogs s)).

(** The effect on the local files of a [docker cp src dst] that ran;
    other commands change no local file. *)
Definition cp_effect (cmd : list string) : M cfs unit :=
  match cmd with
  | [d; c; src; dst] =>
      if (String.eqb d "docker" && String.eqb c "cp")%bool
      then modify (fun s => let '(f', d') := docker_cp E src dst (cfiles s) (cdirs s) in
                            mkCfs f' (d' ∪ cdirs s) (cmds s) (clogs s))
      else ret tt
  | _ => ret tt
  end.

(** [run_cmd(cmd, check=False)] (lines 21-42): [CalledProcessError]
    cannot occur with [check=False]; any other exception is logged (a
    failing log raises out of the handler). A [docker cp] that ran
    changes the local files as [docker_cp] says. *)
Definition run_cmd (cmd : list string) : M cfs (string * string * Z) :=
  let* _ := modify (fun s => mkCfs (cfiles s) (cdirs s) (cmds s ++ [cmd])%list (clogs s)) in
  match docker E cmd with
  | Ran out err rc =>
      let* _ := cp_effect cmd in
      ret (out, err, rc)
  | RunError msg =>
      let* _ := log ("Exception running command: " ++ msg) in
      ret ("", msg, -1)
  end.

(** [open(p, "r").read()]: a directory raises; text mode turns \r\n and
    \r into \n. *)
Definition read_file (p : string) : M cfs string :=
  fun s => match cfiles s !! p with
           | Some c => (Ok (univ_newlines c), s)
           | None => (Exc ((if bool_decide (p ∈ cdirs s) then "IsADirectoryError: "
                            else "FileNotFoundError: ") ++ p), s)
           end.

(** [with open(p, "w") as f: f.write(c)]: opening truncates [p]; a
    failed write leaves the first [cpartial_len E p] characters. *)
Definition write_file (p c : string) : M cfs unit :=
  if copen_ok E p then
    let* _ := set_cfile p EmptyString in
    if cwrite_ok E p then set_cfile p c
    else let* _ := set_cfile p (substring 0 (cpartial_len E p) c) in
         raise ("OSError: cannot write " ++ p)
  else raise ("OSError: cannot open " ++ p).

(** [os.path.getsize(p)] of an existing path. *)
Definition getsize (p : string) : M cfs Z :=
  gets (fun s => match cfiles s !! p with
                 | Some c => Z.of_nat (String.length c)
                 | None => cdir_size E p
                 end).

Definition check_container_running : M cfs bool :=
  let* r := run_cmd PS_CMD in
  let '(out, _, _) := r in
  if String.eqb (PyStr.str_strip out) EmptyString then
    let* _ := log "Container capture_poc is not running! Please start it with 'docker compose up -d'" in
    ret false
  else ret true.

Definition list_interfaces : M cfs unit :=
  let* running := check_container_running in
  if negb running then ret tt
  else
    let* r := run_cmd ["docker"; "exec"; "capture_poc"; "ip"; "link"] in
    let '(out, _, rc) := r in
    if Z.eqb rc 0 then
      let interfaces := PyStr.replace_char "010"%char " "%char (PyStr.replace_char "013"%char " "%char out) in
      log ("Available interfaces in capture_poc: " ++ interfaces)
    else log "Could not list interfaces in capture_poc.".

Definition check_tcpdump : M cfs bool :=
  let* running := check_container_running in
  if negb running then ret false
  else
    let* r := run_cmd ["docker"; "exec"; "capture_poc"; "which"; "tcpdump"] in
    let '(_, _, rc) := r in
    let* ok := (if Z.eqb rc 0 then ret true
                else
                  let* _ := log "tcpdump not found in capture_poc container." in
                  let* _ := log "Installing tcpdump..." in
                  let* r2 := run_cmd ["docker"; "exec"; "capture_poc"; "apk"; "add"; "tcpdump"] in
                  let '(_, err2, rc2) := r2 in
                  if negb (Z.eqb rc2 0) then
                    let* _ := log ("Failed to install tcpdump. Error: " ++ err2) in ret false
                  else let* _ := log "tcpdump installed successfully." in ret true) in
    if negb ok then ret false
    else
      let* r3 := run_cmd ["docker"; "exec"; "capture_poc"; "tcpdump"; "--version"] in
      let '(out3, err3, rc3) := r3 in
      if Z.eqb rc3 0 then
        let version_output := PyStr.replace_char "010"%char " "%char (PyStr.replace_char "013"%char " "%char out3) in
        let* _ := log ("tcpdump version output: " ++ version_output) in ret true
      else let* _ := log ("Failed to get tcpdump version. Error: " ++ err3) in ret false.

Definition ensure_capture_dir : M cfs bool :=
  let* e := exists_ CAPTURES_DIR in
  if e then ret true
  else try_except
         (let* _ := makedirs CAPTURES_DIR in
          let* _ := log ("Created captures directory: " ++ CAPTURES_DIR) in
          ret true)
         (fun err => let* _ := log ("Error creating captures directory: " ++ err) in ret false).

Definition copy_pcap (pcap_name : string) : M cfs bool :=
  let* running := check_container_running in
  if negb running then ret false
  else
    let* d := ensure_capture_dir in
    if negb d then ret false
    else
      let* r := run_cmd (cp_cmd pcap_name) in
      let '(_, err, rc) := r in
      if negb (Z.eqb rc 0) then
        let* _ := log ("Failed to copy " ++ pcap_name ++ " from capture_poc. Error: " ++ err) in
        ret false
      else
        let* e := exists_ (CAPTURES_DIR ++ "/" ++ pcap_name) in
        if e then
          let* size := getsize (CAPTURES_DIR ++ "/" ++ pcap_name) in
          let* _ := log (pcap_name ++ " copied to " ++ CAPTURES_DIR ++ " (" ++ dec size ++ " bytes)") in
          ret true
        else let* _ := log (pcap_name ++ " not found in " ++ CAPTURES_DIR) in ret false.

(** Lines 160-164 of [stop_tcpdump]: the name of the current capture. *)
Definition current_capture_name : M cfs string :=
  let* e := exists_ CURRENT_CAPTURE in
  if e then let* c := read_file CURRENT_CAPTURE in ret (PyStr.str_strip c)
  else ret "test.pcap".

(** [stop_tcpdump(quiet)]; [time.sleep(2)] has no effect on the state. *)
Definition stop_tcpdump (quiet : bool) : M cfs bool :=
  let* running := check_container_running in
  if negb running then ret false
  else
    let* r := run_cmd ["docker"; "exec"; "capture_poc"; "pkill"; "-INT"; "tcpdump"] in
    let '(_, _, rc) := r in
    let* _ := (if negb (Z.eqb rc 0) && negb quiet
               then log "Failed to send SIGINT to tcpdump in capture_poc (it may not be running)"
               else ret tt) in
    let* current_capture := current_capture_name in
    copy_pcap current_capture.

(** The name [start_tcpdump] resolves [pcap_name] to. *)
Definition resolve_pcap_name (pcap_name : string) : string :=
  if String.eqb pcap_name "auto"
  then "capture_" ++ strftime_stamp (now E) ++ ".pcap"
  else pcap_name.

Definition start_cmd (interface pcap_name : string) : list string :=
  ["docker"; "exec"; "-d"; "capture_poc"; "tcpdump"; "-i"; interface;
   "-w"; "/captures/" ++ pcap_name; "not"; "port"; "22"].

Definition start_tcpdump (interface pcap_name : string) : M cfs bool :=
  let* running := check_container_running in
  if negb running then ret false
  else
    let* t := check_tcpdump in
    if negb t then ret false
    else
      let* d := ensure_capture_dir in
      if negb d then ret false
      else
        let* _ := stop_tcpdump true in
        let name := resolve_pcap_name pcap_name in
        let* r := run_cmd (start_cmd interface name) in
        let '(_, err, rc) := r in
        if negb (Z.eqb rc 0) then
          let* _ := log ("Failed to start tcpdump in capture_poc on interface " ++ interface ++
                         ". Error: " ++ err) in
          ret false
        else
          let* _ := log ("tcpdump started in capture_poc on interface " ++ interface ++
                         " -> /captures/" ++ name) in
          let* _ := write_file CURRENT_CAPTURE name in
          ret true.

End Script.

End Capture.
(* ================================================================== *)
(** * The monad: inverting a successful bind *)
Module PyFacts.
Import Py.

Lemma bind_ok_inv {S A B} (m : M S A) (k : A -> M S B) s b s'' :
  bind m k s = (Ok b, s'') -> exists a s', m s = (Ok a, s') /\ k a s' = (Ok b, s'').
Proof. unfold bind. destruct (m s) as [[a|e] s']; intros H; [eauto|discriminate]. Qed.

Ltac inv_bind H a s1 H1 H2 :=
  apply bind_ok_inv in H; destruct H as [a [s1 [H1 H2]]].

End PyFacts.
Module TestAllProxiesFacts.
Import TestAllProxies.

(** Every [test_proxy] call that does not raise yields one entry per host. *)
Lemma test_proxy_some E hosts p rs :
  test_proxy E hosts p = Some rs -> rs = map (test_entry E p) hosts.
Proof.
  unfold test_proxy. destruct (String.eqb _ _); [congruence|].
  destruct (port_mapping _); congruence.
Qed.

Lemma collect_some E hosts ps rs :
  collect E hosts ps = Some rs ->
  rs = flat_map (fun p => map (test_entry E p) hosts) ps.
Proof.
  revert rs. induction ps as [|p ps IH]; simpl; intros rs H.
  - congruence.
  - destruct (test_proxy E hosts p) as [b|] eqn:Hb; [|discriminate].
    destruct (collect E hosts ps) as [rest|] eqn:Hr; [|discriminate].
    inversion H; subst. rewrite (test_proxy_some _ _ _ _ Hb), (IH rest eq_refl).
    reflexivity.
Qed.

Lemma run_all_tests_some E ps hosts rep rs :
  run_all_tests E ps hosts = Some (rep, rs) ->
  collect E hosts ps = Some rs /\ report_write_ok E = true /\
  rep = JObj [("test_run",
                JObj [("timestamp", JStr (report_time E));
                      ("total_proxies", JInt (Z.of_nat (length ps)));
                      ("total_tests", JInt (Z.of_nat (length rs)));
                      ("successful_tests", JInt (Z.of_nat (count_success rs)))]);
              ("proxy_configs", JList (map profile_json ps));
              ("test_hosts", JList (map JStr hosts));
              ("results", JList rs)].
Proof.
  unfold run_all_tests. destruct (collect E hosts ps) as [all|]; [|discriminate].
  destruct (report_write_ok E); [|discriminate].
  intros H; inversion H; subst. auto.
Qed.

Lemma count_split (rs : list json) :
  (count_success rs + count_failed rs)%nat = length rs.
Proof.
  unfold count_success, count_failed. induction rs as [|r rs IH]; simpl; [reflexivity|].
  destruct (success_of r); simpl; lia.
Qed.

Lemma count_failed_pos (rs : list json) :
  (0 < count_failed rs)%nat <-> Exists (fun r => success_of r = false) rs.
Proof.
  unfold count_failed. induction rs as [|r rs IH]; simpl.
  - split; [lia|intros H; inversion H].
  - rewrite Exists_cons. destruct (success_of r) eqn:Hr; simpl.
    + rewrite <- IH. split; [intros H; right; exact H|intros [H|H]; [discriminate|exact H]].
    + split; [intros _; left; reflexivity|lia].
Qed.

(** Entries of the concatenated matrix sit at [profile index * |hosts| +
    host index]. *)
Lemma flat_map_blocks_nth {A B C} (f : A -> B -> C) (ps : list A) (hosts : list B)
      i r :
  nth_error (flat_map (fun p => map (f p) hosts) ps) i = Some r ->
  exists p h, nth_error ps (i / length hosts) = Some p /\
              nth_error hosts (i mod length hosts) = Some h /\ r = f p h.
Proof.
  destruct hosts as [|h0 hs] eqn:Hh.
  { intros H. exfalso. rewrite <- Hh in H.
    assert (Hnil : flat_map (fun p => map (f p) hosts) ps = []).
    { subst hosts. induction ps; simpl; auto. }
    rewrite Hnil in H. destruct i; discriminate. }
  rewrite <- Hh. set (n := length hosts).
  assert (Hn : n <> 0%nat) by (unfold n; subst hosts; simpl; lia).
  revert i. induction ps as [|p ps IH]; intros i H; simpl in H.
  - destruct i; discriminate.
  - destruct (Nat.lt_ge_cases i n) as [Hlt|Hge].
    + rewrite nth_error_app1 in H by (rewrite length_map; exact Hlt).
      rewrite nth_error_map in H.
      destruct (nth_error hosts i) as [h|] eqn:Hi; [|discriminate].
      simpl in H. inversion H; subst r.
      exists p, h. rewrite Nat.div_small by exact Hlt.
      rewrite Nat.mod_small by exact Hlt. auto.
    + rewrite nth_error_app2 in H by (rewrite length_map; exact Hge).
      rewrite length_map in H. fold n in H.
      destruct (IH _ H) as [p' [h [Hp [Hhost ->]]]].
      exists p', h.
      assert (Hi : i = ((i - n) + 1 * n)%nat) by lia.
      rewrite Hi, Nat.div_add, Nat.Div0.mod_add by exact Hn.
      rewrite Nat.add_1_r. simpl. auto.
Qed.

Lemma length_flat_map_blocks {A B C} (f : A -> B -> C) (ps : list A) (hosts : list B) :
  length (flat_map (fun p => map (f p) hosts) ps) = (length ps * length hosts)%nat.
Proof.
  induction ps as [|p ps IH]; simpl; [reflexivity|].
  rewrite length_app, length_map, IH. reflexivity.
Qed.


(** Sample worlds: every request succeeds, or every curl invocation raises. *)
Definition env_all_ok : env :=
  mkEnv (fun _ _ => Completed 0 "") (fun p u => p ++ "@" ++ u) "t0" true.

Definition env_one_fail : env :=
  mkEnv (fun e u => if env_truthy e then
                      (if String.eqb u "https://example.com" then Completed 35 "tls" else Completed 0 "")
                    else Completed 0 "")
        (fun p u => p ++ "@" ++ u) "t0" true.

Definition env_curl_raises : env :=
  mkEnv (fun _ _ => Raised "[Errno 2] No such file or directory: 'curl'")
        (fun p u => p ++ "@" ++ u) "t0" true.

Definition TWO_HOSTS : list string := ["http://example.com"; "https://example.com"].

Example matrix_all_ok_six :
  option_map (fun x => report_successful (fst x)) (run_all_tests env_all_ok PROXIES TWO_HOSTS)
  = Some (Some (JInt 6)).
Proof. reflexivity. Qed.

Example matrix_one_fail_exit :
  option_map (fun x => report_successful (fst x)) (run_all_tests env_one_fail PROXIES TWO_HOSTS)
  = Some (Some (JInt 4)) /\ main env_one_fail [] PROXIES TWO_HOSTS = 1.
Proof. split; reflexivity. Qed.

(** C1: in every run that completes (the report is written), the
    report's [successful_tests] is the number of entries with
    [success = true], [total_tests] is the number of entries, and the
    driver (run without [--help]) exits with 1 exactly when some entry
    has [success = false], and with 0 otherwise; with exactly one failing
    entry it exits with 1 and [successful_tests = total_tests - 1]. *)
Theorem run_report_exit_code E argv ps hosts rep rs :
  hd_error argv <> Some "--help" ->
  run_all_tests E ps hosts = Some (rep, rs) ->
  report_successful rep = Some (JInt (Z.of_nat (count_success rs))) /\
  report_total rep = Some (JInt (Z.of_nat (length rs))) /\
  (main E argv ps hosts = 1 <-> Exists (fun r => success_of r = false) rs) /\
  (main E argv ps hosts = 0 <-> Forall (fun r => success_of r = true) rs) /\
  (count_failed rs = 1%nat ->
     main E argv ps hosts = 1 /\ count_success rs = (length rs - 1)%nat).
Proof.
  intros Harg Hrun.
  pose proof (run_all_tests_some _ _ _ _ _ Hrun) as [_ [_ Hrep]].
  assert (Hmain : main E argv ps hosts = if (0 <? count_failed rs)%nat then 1 else 0).
  { unfold main. rewrite Hrun.
    destruct argv as [|a argv]; [reflexivity|].
    destruct (String.eqb a "--help") eqn:Ha.
    - apply String.eqb_eq in Ha. subst a. simpl in Harg. congruence.
    - destruct a as [|c a]; [reflexivity|].
      repeat match goal with
             | |- context [match ?x with _ => _ end] =>
                 lazymatch x with
                 | run_all_tests _ _ _ => fail
                 | _ => destruct x
                 end
             end; try reflexivity;
      simpl in Ha; discriminate. }
  subst rep. split; [reflexivity|]. split; [reflexivity|].
  pose proof (count_failed_pos rs) as Hpos.
  pose proof (count_split rs) as Hsplit.
  rewrite Hmain. split; [|split].
  - destruct (Nat.ltb_spec 0 (count_failed rs)) as [Hc|Hc]; split; intros H.
    + apply Hpos. lia.
    + reflexivity.
    + discriminate.
    + apply Hpos in H. lia.
  - rewrite Forall_forall.
    destruct (Nat.ltb_spec 0 (count_failed rs)) as [Hc|Hc]; split; intros H.
    + discriminate.
    + exfalso. apply Hpos in Hc. apply Exists_exists in Hc.
      destruct Hc as [r [Hin Hr]]. rewrite (H r Hin) in Hr. discriminate.
    + intros r Hin. destruct (success_of r) eqn:Hr; [reflexivity|].
      assert (0 < count_failed rs)%nat by (apply Hpos, Exists_exists; eauto). lia.
    + reflexivity.
  - intros H1. rewrite H1. simpl. split; [reflexivity|lia].
Qed.

Lemma run_report_exit_code_witness :
  hd_error (@nil string) <> Some "--help" /\
  run_all_tests env_one_fail PROXIES TWO_HOSTS =
    Some (fst (match run_all_tests env_one_fail PROXIES TWO_HOSTS with
               | Some x => x | None => (JNull, []) end),
          snd (match run_all_tests env_one_fail PROXIES TWO_HOSTS with
               | Some x => x | None => (JNull, []) end)) /\
  main env_one_fail [] PROXIES TWO_HOSTS = 1.
Proof.
  assert (Hh : hd_error (@nil string) <> Some "--help") by discriminate.
  assert (Hr : run_all_tests env_one_fail PROXIES TWO_HOSTS =
    Some (fst (match run_all_tests env_one_fail PROXIES TWO_HOSTS with
               | Some x => x | None => (JNull, []) end),
          snd (match run_all_tests env_one_fail PROXIES TWO_HOSTS with
               | Some x => x | None => (JNull, []) end))) by reflexivity.
  split; [exact Hh|]. split; [exact Hr|].
  apply (proj2 (proj1 (proj2 (proj2 (run_report_exit_code _ [] _ _ _ _ Hh Hr))))).
  vm_compute.
  repeat (first [apply Exists_cons_hd; reflexivity | apply Exists_cons_tl]).
Defined.


(** The (proxy, url) identity of a result entry. *)
Definition entry_key (r : json) : option json * option json :=
  (field "proxy" r, field "url" r).

Lemma test_entry_key E p h :
  entry_key (test_entry E p h) = (Some (JStr (p_name p)), Some (JStr h)).
Proof.
  unfold test_entry, entry_key.
  destruct (curl E _ h); reflexivity.
Qed.

(** C5: a completed run lists |P|*|T| entries in declaration order: entry
    [i] comes from profile [P[i / |T|]] and target [T[i mod |T|]]; the
    (proxy, url) sequence is the same in any two completed runs over the
    same profiles and targets, whatever the request outcomes. *)
Theorem matrix_declaration_order E ps hosts rep rs :
  run_all_tests E ps hosts = Some (rep, rs) ->
  length rs = (length ps * length hosts)%nat /\
  (forall i r, nth_error rs i = Some r ->
     exists p h, nth_error ps (i / length hosts) = Some p /\
                 nth_error hosts (i mod length hosts) = Some h /\
                 field "proxy" r = Some (JStr (p_name p)) /\
                 field "url" r = Some (JStr h)) /\
  (forall E' rep' rs', run_all_tests E' ps hosts = Some (rep', rs') ->
     map entry_key rs' = map entry_key rs).
Proof.
  intros Hrun.
  destruct (run_all_tests_some _ _ _ _ _ Hrun) as [Hc _].
  pose proof (collect_some _ _ _ _ Hc) as Hrs. subst rs.
  split; [apply length_flat_map_blocks|]. split.
  - intros i r Hi.
    destruct (flat_map_blocks_nth _ _ _ _ _ Hi) as [p [h [Hp [Hh ->]]]].
    exists p, h. repeat split; try assumption.
    + pose proof (test_entry_key E p h) as Hk. unfold entry_key in Hk. congruence.
    + pose proof (test_entry_key E p h) as Hk. unfold entry_key in Hk. congruence.
  - intros E' rep' rs' Hrun'.
    destruct (run_all_tests_some _ _ _ _ _ Hrun') as [Hc' _].
    rewrite (collect_some _ _ _ _ Hc').
    clear. induction ps as [|p ps IH]; simpl; [reflexivity|].
    rewrite !map_app, IH, !map_map.
    f_equal. apply map_ext. intros h. rewrite !test_entry_key. reflexivity.
Qed.

Lemma matrix_declaration_order_witness :
  run_all_tests env_all_ok PROXIES TWO_HOSTS =
    Some (fst (match run_all_tests env_all_ok PROXIES TWO_HOSTS with
               | Some x => x | None => (JNull, []) end),
          snd (match run_all_tests env_all_ok PROXIES TWO_HOSTS with
               | Some x => x | None => (JNull, []) end)) /\
  length (snd (match run_all_tests env_all_ok PROXIES TWO_HOSTS with
               | Some x => x | None => (JNull, []) end)) = 6%nat.
Proof.
  assert (Hr : run_all_tests env_all_ok PROXIES TWO_HOSTS =
    Some (fst (match run_all_tests env_all_ok PROXIES TWO_HOSTS with
               | Some x => x | None => (JNull, []) end),
          snd (match run_all_tests env_all_ok PROXIES TWO_HOSTS with
               | Some x => x | None => (JNull, []) end))) by reflexivity.
  split; [exact Hr|].
  exact (proj1 (matrix_declaration_order _ _ _ _ _ Hr)).
Defined.

(** C6, as stated, fails: when issuing the request raises, the entry has
    no [return_code] field (it carries [error] instead). *)
Lemma result_fields_counterexample :
  exists rep rs,
    run_all_tests env_curl_raises PROXIES TEST_HOSTS = Some (rep, rs) /\
    field "results" rep = Some (JList rs) /\
    exists r, In r rs /\ has_field "return_code" r = false.
Proof.
  do 2 eexists. split; [reflexivity|]. split; [reflexivity|].
  eexists. split; [simpl; left; reflexivity|reflexivity].
Qed.

(** C6 (amended): every entry of the persisted [results] comes from one
    profile [p] and one host [h] of the run and has [proxy] (the name of
    [p]), [url] ([h]) and [timestamp]. If the curl process for that
    request completed with exit status [rc], the entry has
    [success = (rc == 0)], [return_code = rc], [stderr] (null on
    success, curl's stderr otherwise) and no [error]; if issuing the
    request raised, it has [success = false], [error] (the exception's
    message), and neither [return_code] nor [stderr]. *)
Theorem result_entry_fields E ps hosts rep rs :
  run_all_tests E ps hosts = Some (rep, rs) ->
  field "results" rep = Some (JList rs) /\
  forall r, In r rs ->
    exists p h, In p ps /\ In h hosts /\
      field "proxy" r = Some (JStr (p_name p)) /\ field "url" r = Some (JStr h) /\
      has_field "timestamp" r = true /\
      match curl E (request_env p) h with
      | Completed rc err =>
          field "success" r = Some (JBool (rc =? 0)) /\
          field "return_code" r = Some (JInt rc) /\
          field "stderr" r = Some (if rc =? 0 then JNull else JStr err) /\
          has_field "error" r = false
      | Raised msg =>
          field "success" r = Some (JBool false) /\
          field "error" r = Some (JStr msg) /\
          has_field "return_code" r = false /\ has_field "stderr" r = false
      end.
Proof.
  intros Hrun.
  destruct (run_all_tests_some _ _ _ _ _ Hrun) as [Hc [_ Hrep]].
  split; [subst rep; reflexivity|].
  rewrite (collect_some _ _ _ _ Hc).
  intros r Hin. apply in_flat_map in Hin. destruct Hin as [p [Hp Hin]].
  apply in_map_iff in Hin. destruct Hin as [h [<- Hh]].
  exists p, h. split; [exact Hp|]. split; [exact Hh|].
  unfold test_entry. destruct (curl E (request_env p) h) as [rc err|msg].
  - repeat split.
  - repeat split.
Qed.

Lemma result_entry_fields_witness :
  run_all_tests env_curl_raises PROXIES TEST_HOSTS =
    Some (fst (match run_all_tests env_curl_raises PROXIES TEST_HOSTS with
               | Some x => x | None => (JNull, []) end),
          snd (match run_all_tests env_curl_raises PROXIES TEST_HOSTS with
               | Some x => x | None => (JNull, []) end)) /\
  field "results" (fst (match run_all_tests env_curl_raises PROXIES TEST_HOSTS with
                        | Some x => x | None => (JNull, []) end)) =
    Some (JList (snd (match run_all_tests env_curl_raises PROXIES TEST_HOSTS with
                      | Some x => x | None => (JNull, []) end))).
Proof.
  assert (Hr : run_all_tests env_curl_raises PROXIES TEST_HOSTS =
    Some (fst (match run_all_tests env_curl_raises PROXIES TEST_HOSTS with
               | Some x => x | None => (JNull, []) end),
          snd (match run_all_tests env_curl_raises PROXIES TEST_HOSTS with
               | Some x => x | None => (JNull, []) end))) by reflexivity.
  split; [exact Hr|].
  exact (proj1 (result_entry_fields _ _ _ _ _ Hr)).
Defined.

End TestAllProxiesFacts.

(* ================================================================== *)
(** * Properties of the CA bootstrap *)
Module InstallProxyCAsFacts.
Import Py PyFacts InstallProxyCAs.

(** ** [log] *)

(** [log] can append its line: [LOGDIR] is a directory, or nothing
    exists at [LOGDIR] and it can be created; and the log file can be
    opened and written. *)
Definition can_log (root : string) (E : ienv) (s : fs) : bool :=
  ((bool_decide (LOGDIR root ∈ dirs s) ||
    (negb (path_exists (LOGDIR root) s) && mkdir_ok E (LOGDIR root))) && log_ok E)%bool.

(** The exceptions a failing [log] raises. *)
Definition log_error (root e : string) : Prop :=
  e = ("OSError: cannot create " ++ LOGDIR root)%string \/
  e = ("OSError: cannot open " ++ LOGFILE root)%string.

(** The state after a successful [log(msg)]. *)
Definition add_log (root msg : string) (s : fs) : fs :=
  mkFs (files s) ({[LOGDIR root]} ∪ dirs s) (logs s ++ [msg])%list (writes s) (events s).

(** What a failing [log] may have changed: at most [LOGDIR] was created. *)
Definition log_frame (root : string) (s s' : fs) : Prop :=
  files s' = files s /\ writes s' = writes s /\ events s' = events s /\
  logs s' = logs s /\ dirs s' ⊆ {[LOGDIR root]} ∪ dirs s.

Lemma union_present (x : string) (X : gset string) : x ∈ X -> {[x]} ∪ X = X.
Proof. intros H. apply subseteq_union_L. set_solver. Qed.

Lemma log_spec root E msg s :
  (can_log root E s = true -> log root E msg s = (Ok tt, add_log root msg s)) /\
  (can_log root E s = false ->
   exists e, log root E msg s = (Exc e, snd (log root E msg s)) /\ log_error root e /\
             log_frame root s (snd (log root E msg s))).
Proof.
  unfold can_log, log, bind, exists_, gets, append_log, makedirs, modify, raise, ret,
    add_log, log_frame, log_error.
  destruct (bool_decide (LOGDIR root ∈ dirs s)) eqn:Hd.
  - assert (Hp : path_exists (LOGDIR root) s = true).
    { unfold path_exists. destruct (files s !! LOGDIR root); [reflexivity|exact Hd]. }
    rewrite Hp, Hd. simpl.
    apply bool_decide_eq_true in Hd. rewrite (union_present _ _ Hd).
    destruct (log_ok E); simpl.
    + split; [reflexivity|discriminate].
    + split; [discriminate|]. intros _. eexists. split; [reflexivity|].
      split; [right; reflexivity|]. repeat split; set_solver.
  - destruct (path_exists (LOGDIR root) s) eqn:Hp; simpl.
    + rewrite Hd. simpl. split; [discriminate|]. intros _. eexists.
      split; [reflexivity|]. split; [right; reflexivity|]. repeat split; set_solver.
    + destruct (mkdir_ok E (LOGDIR root)); simpl.
      * rewrite bool_decide_eq_true_2 by set_solver.
        destruct (log_ok E); simpl.
        -- split; [reflexivity|discriminate].
        -- split; [discriminate|]. intros _. eexists. split; [reflexivity|].
           split; [right; reflexivity|]. repeat split; set_solver.
      * split; [destruct (log_ok E); discriminate|]. intros _. eexists.
        split; [reflexivity|]. split; [left; reflexivity|]. repeat split; set_solver.
Qed.

(** Once a line was logged, the next one can be logged too. *)
Lemma can_log_add root E msg s :
  can_log root E s = true -> can_log root E (add_log root msg s) = true.
Proof.
  unfold can_log, add_log. simpl. intros H.
  apply andb_prop in H. destruct H as [_ H]. rewrite H.
  rewrite bool_decide_eq_true_2 by set_solver. reflexivity.
Qed.

(** ** Steps that never append to the trace of observable calls *)
Definition keeps_events {A} (m : M fs A) : Prop :=
  forall s, events (snd (m s)) = events s.

Create HintDb keeps.

Lemma keeps_ret {A} (a : A) : keeps_events (ret a).
Proof. intros s; reflexivity. Qed.

Lemma keeps_raise {A} e : keeps_events (A:=A) (raise e).
Proof. intros s; reflexivity. Qed.

Lemma keeps_bind {A B} (m : M fs A) (k : A -> M fs B) :
  keeps_events m -> (forall a, keeps_events (k a)) -> keeps_events (bind m k).
Proof.
  intros Hm Hk s. unfold bind. specialize (Hm s).
  destruct (m s) as [[a|e] s'] eqn:Hs; simpl in *; [rewrite Hk|]; exact Hm.
Qed.

Lemma keeps_try {A} (m : M fs A) h :
  keeps_events m -> (forall e, keeps_events (h e)) -> keeps_events (try_except m h).
Proof.
  intros Hm Hh s. unfold try_except. specialize (Hm s).
  destruct (m s) as [[a|e] s'] eqn:Hs; simpl in *; [|rewrite Hh]; exact Hm.
Qed.

Lemma keeps_if {A} (b : bool) (m1 m2 : M fs A) :
  keeps_events m1 -> keeps_events m2 -> keeps_events (if b then m1 else m2).
Proof. destruct b; auto. Qed.

Lemma keeps_exists p : keeps_events (exists_ p).
Proof. intros s; reflexivity. Qed.

Lemma keeps_makedirs E p : keeps_events (makedirs E p).
Proof. intros s; unfold makedirs; destruct (mkdir_ok E p); reflexivity. Qed.

Lemma keeps_append root E msg : keeps_events (append_log root E msg).
Proof. intros s; unfold append_log; destruct (_ && _)%bool; reflexivity. Qed.

Lemma keeps_set_file p c : keeps_events (set_file p c).
Proof. intros s; reflexivity. Qed.

Lemma keeps_modify_files f : keeps_events (modify (fun s => mkFs (f s) (dirs s) (logs s) (writes s) (events s))).
Proof. intros s; reflexivity. Qed.

Lemma keeps_read E p : keeps_events (read_file E p).
Proof.
  intros s; unfold read_file; destruct (files s !! p); [destruct (read_ok E p)|]; reflexivity.
Qed.

#[local] Hint Resolve keeps_ret keeps_raise keeps_bind keeps_try keeps_exists
  keeps_makedirs keeps_append keeps_set_file keeps_read keeps_if : keeps.

Lemma keeps_log root E msg : keeps_events (log root E msg).
Proof. unfold log. eauto 10 with keeps. Qed.

Lemma keeps_write E p c : keeps_events (write_file E p c).
Proof.
  unfold write_file. apply keeps_if; [|eauto with keeps].
  apply keeps_bind; [intros s; reflexivity|]. eauto 10 with keeps.
Qed.

Lemma keeps_run_refresh E : keeps_events (run_refresh E).
Proof. intros s; reflexivity. Qed.

#[local] Hint Resolve keeps_log keeps_write keeps_run_refresh : keeps.

Lemma keeps_copy E src dst : keeps_events (copy_file E src dst).
Proof.
  intros s. unfold copy_file.
  destruct (String.eqb _ _); [reflexivity|].
  apply keeps_bind; eauto with keeps.
Qed.
#[local] Hint Resolve keeps_copy : keeps.

Lemma keeps_ensure_dirs root E ds : keeps_events (ensure_dirs root E ds).
Proof. induction ds as [|d ds IH]; simpl; eauto 20 with keeps. Qed.
#[local] Hint Resolve keeps_ensure_dirs : keeps.

Lemma keeps_generate_ca root E : keeps_events (generate_ca root E).
Proof.
  unfold generate_ca, ensure_directories_and_files.
  apply keeps_bind; [eauto 20 with keeps|]. intros ok.
  apply keeps_if; [eauto 20 with keeps|].
  apply keeps_bind; [eauto with keeps|]. intros k.
  apply keeps_bind; [eauto with keeps|]. intros c.
  apply keeps_if; eauto 20 with keeps.
Qed.

Lemma keeps_install_ca root E src n : keeps_events (install_ca root E src n).
Proof.
  unfold install_ca. apply keeps_bind; [eauto with keeps|]. intros e.
  apply keeps_if; [|eauto 20 with keeps].
  apply keeps_bind; [eauto with keeps|]. intros d.
  apply keeps_bind; [apply keeps_if; eauto 20 with keeps|]. intros ok.
  apply keeps_if; eauto 20 with keeps.
Qed.

Lemma keeps_is_valid root E p : keeps_events (is_valid_pem_cert root E p).
Proof.
  unfold is_valid_pem_cert. apply keeps_bind; [eauto with keeps|]. intros e.
  apply keeps_if; [eauto with keeps|].
  apply keeps_try; [|eauto 20 with keeps].
  apply keeps_bind; [eauto with keeps|]. intros data.
  apply keeps_if; [eauto with keeps|]. apply keeps_if; eauto with keeps.
Qed.

Lemma keeps_wait_for root E p : keeps_events (wait_for root E p).
Proof. unfold wait_for. apply keeps_bind; [eauto with keeps|]. intros _.
       apply keeps_if; eauto 20 with keeps. Qed.

Lemma keeps_ok {A} (m : M fs A) s a s' :
  keeps_events m -> m s = (Ok a, s') -> events s' = events s.
Proof. intros Hk Hm. specialize (Hk s). rewrite Hm in Hk. exact Hk. Qed.

(** ** Sample worlds *)

(** A certificate the sample parser accepts. *)
Definition VALID_PEM : string :=
  "-----BEGIN CERTIFICATE-----" ++ String "010" "MIIB" ++
  String "010" "-----END CERTIFICATE-----".

(** Nothing can be created or written, every file can be read, the log
    can be written, the parser accepts only [VALID_PEM], and no sibling
    CA ever appears. *)
Definition env_locked : ienv :=
  mkIEnv (fun _ => false) (fun _ => false) (fun _ => false) (fun _ => O) (fun _ => true)
         true true "KEY" VALID_PEM (fun d => String.eqb d VALID_PEM) true (fun _ => false)
         (Some 0) (fun f => f).


(** A project at [/app] whose only directory is the log directory. *)
Definition fs_init : fs := mkFs ∅ {[LOGDIR "/app"]} [] [] [].


(** A project at [/app] whose [logs] is a regular file. *)
Definition fs_bad_logdir (p c : string) : fs :=
  mkFs (<[LOGDIR "/app" := ""]> {[p := c]}) ∅ [] [] [].

(** ** C8: [install_ca] with a missing source *)

(** C8, as stated, fails: with [logs] a regular file, [install_ca] of a
    missing source raises from [log] instead of returning false. *)
Lemma install_ca_missing_counterexample :
  path_exists MITM_CA_PATH (fs_bad_logdir "/x" "") = false /\
  fst (install_ca "/app" env_locked MITM_CA_PATH "mitmproxy-ca.crt" (fs_bad_logdir "/x" "")) =
    Exc "OSError: cannot open /app/logs/install_proxy_cas.log".
Proof. split; vm_compute; reflexivity. Qed.

(** C8 (amended): installing from a source path that does not exist
    copies nothing, writes no file and creates no directory other than
    the log directory (so not the trust directory). When [log] can
    append its line, it returns false and the only change is that line
    (with [LOGDIR] created if missing); otherwise it raises the error of
    [log] and no line is added. *)
Theorem install_ca_missing_source root E src name s :
  path_exists src s = false ->
  files (snd (install_ca root E src name s)) = files s /\
  writes (snd (install_ca root E src name s)) = writes s /\
  events (snd (install_ca root E src name s)) = events s /\
  dirs (snd (install_ca root E src name s)) ⊆ {[LOGDIR root]} ∪ dirs s /\
  (can_log root E s = true ->
   install_ca root E src name s = (Ok false, add_log root ("CA candidate not found: " ++ src) s)) /\
  (can_log root E s = false ->
   exists e, fst (install_ca root E src name s) = Exc e /\ log_error root e /\
             logs (snd (install_ca root E src name s)) = logs s).
Proof.
  intros H.
  assert (Hi : install_ca root E src name s =
               bind (log root E ("CA candidate not found: " ++ src)) (fun _ => ret false) s).
  { unfold install_ca, bind at 1, exists_, gets. rewrite H. reflexivity. }
  rewrite Hi. destruct (log_spec root E ("CA candidate not found: " ++ src) s) as [Hok Hko].
  destruct (can_log root E s) eqn:Hc.
  - unfold bind. rewrite (Hok eq_refl). simpl.
    repeat split; try set_solver; discriminate.
  - destruct (Hko eq_refl) as [e [He [Hle (Hf & Hw & Hev & Hl & Hd)]]].
    unfold bind. rewrite He. simpl.
    repeat split; try assumption; try discriminate.
    intros _. exists e. auto.
Qed.

Lemma install_ca_missing_source_witness :
  path_exists MITM_CA_PATH fs_init = false /\
  install_ca "/app" env_locked MITM_CA_PATH "mitmproxy-ca.crt" fs_init =
    (Ok false, add_log "/app" ("CA candidate not found: " ++ MITM_CA_PATH) fs_init).
Proof.
  assert (H : path_exists MITM_CA_PATH fs_init = false) by reflexivity.
  split; [exact H|].
  destruct (install_ca_missing_source "/app" env_locked MITM_CA_PATH "mitmproxy-ca.crt" fs_init H)
    as (_ & _ & _ & _ & Hok & _).
  apply Hok. vm_compute. reflexivity.
Defined.

(** ** C7: [is_valid_pem_cert] *)



(** ** C2: [generate_ca] with both CA files present *)

(** The CA files are left alone, and never written, by a step. *)
Definition ca_untouched root (k c : string) (s s' : fs) : Prop :=
  files s' !! CA_KEY root = Some k /\ files s' !! CA_CERT root = Some c /\
  (exists w, writes s' = (writes s ++ w)%list /\
             (CA_KEY root ∉ w) /\ (CA_CERT root ∉ w)).

Lemma ca_untouched_trans root k c s1 s2 s3 :
  ca_untouched root k c s1 s2 -> ca_untouched root k c s2 s3 -> ca_untouched root k c s1 s3.
Proof.
  intros (_ & _ & w1 & Hw1 & Hk1 & Hc1) (Hk & Hc & w2 & Hw2 & Hk2 & Hc2).
  split; [exact Hk|]. split; [exact Hc|]. exists (w1 ++ w2)%list.
  rewrite Hw2, Hw1, app_assoc. split; [reflexivity|].
  rewrite !elem_of_app. split; intros [H|H]; contradiction.
Qed.

Lemma ca_untouched_frame root k c s s' :
  files s !! CA_KEY root = Some k -> files s !! CA_CERT root = Some c ->
  files s' = files s -> writes s' = writes s ->
  ca_untouched root k c s s'.
Proof.
  intros Hk Hc Hf Hw. unfold ca_untouched. rewrite Hf. split; [exact Hk|]. split; [exact Hc|].
  exists []. rewrite app_nil_r, Hw. split; [reflexivity|]. split; apply not_elem_of_nil.
Qed.

(** Steps that leave the CA files alone and never write them. *)
Definition keeps_ca {A} root k c (m : M fs A) : Prop :=
  forall s, files s !! CA_KEY root = Some k -> files s !! CA_CERT root = Some c ->
            ca_untouched root k c s (snd (m s)).

Lemma kc_frame {A} root k c (m : M fs A) :
  (forall s, files (snd (m s)) = files s /\ writes (snd (m s)) = writes s) ->
  keeps_ca root k c m.
Proof. intros H s Hk Hc. destruct (H s). apply ca_untouched_frame; assumption. Qed.

Lemma kc_bind {A B} root k c (m : M fs A) (f : A -> M fs B) :
  keeps_ca root k c m -> (forall a, keeps_ca root k c (f a)) -> keeps_ca root k c (bind m f).
Proof.
  intros Hm Hf s Hk Hc. specialize (Hm s Hk Hc). unfold bind.
  destruct (m s) as [[a|e] s1]; simpl in *; [|exact Hm].
  pose proof Hm as (Hk1 & Hc1 & _).
  apply (ca_untouched_trans _ _ _ _ s1); [exact Hm|]. apply Hf; assumption.
Qed.

Lemma kc_try {A} root k c (m : M fs A) h :
  keeps_ca root k c m -> (forall e, keeps_ca root k c (h e)) -> keeps_ca root k c (try_except m h).
Proof.
  intros Hm Hh s Hk Hc. specialize (Hm s Hk Hc). unfold try_except.
  destruct (m s) as [[a|e] s1]; simpl in *; [exact Hm|].
  pose proof Hm as (Hk1 & Hc1 & _).
  apply (ca_untouched_trans _ _ _ _ s1); [exact Hm|]. apply Hh; assumption.
Qed.

Lemma kc_if {A} root k c (b : bool) (m1 m2 : M fs A) :
  keeps_ca root k c m1 -> keeps_ca root k c m2 -> keeps_ca root k c (if b then m1 else m2).
Proof. destruct b; auto. Qed.

Lemma kc_ret {A} root k c (a : A) : keeps_ca root k c (ret a).
Proof. apply kc_frame. intros s; split; reflexivity. Qed.

Lemma kc_exists root k c p : keeps_ca root k c (exists_ p).
Proof. apply kc_frame. intros s; split; reflexivity. Qed.

Lemma kc_log root k c E msg : keeps_ca root k c (log root E msg).
Proof.
  apply kc_frame. intros s. destruct (log_spec root E msg s) as [Hok Hko].
  destruct (can_log root E s).
  - rewrite (Hok eq_refl). split; reflexivity.
  - destruct (Hko eq_refl) as (e & _ & _ & Hf & Hw & _). split; assumption.
Qed.

Lemma kc_makedirs root k c E p : keeps_ca root k c (makedirs E p).
Proof. apply kc_frame. intros s. unfold makedirs. destruct (mkdir_ok E p); split; reflexivity. Qed.

Lemma kc_write root k c E p d :
  p <> CA_KEY root -> p <> CA_CERT root -> keeps_ca root k c (write_file E p d).
Proof.
  intros Hpk Hpc s Hk Hc. unfold write_file.
  destruct (open_ok E p); [|apply ca_untouched_frame; auto].
  unfold bind, modify, set_file, raise, ca_untouched.
  destruct (write_ok E p); simpl;
    (split; [rewrite !lookup_insert_ne by congruence; exact Hk|]);
    (split; [rewrite !lookup_insert_ne by congruence; exact Hc|]);
    exists [p]; (split; [reflexivity|]);
    split; rewrite list_elem_of_singleton; congruence.
Qed.

#[local] Hint Resolve kc_bind kc_try kc_if kc_ret kc_exists kc_log kc_makedirs : keeps.

Lemma kc_ensure_dirs root k c E ds : keeps_ca root k c (ensure_dirs root E ds).
Proof. induction ds as [|d ds IH]; simpl; eauto 20 with keeps. Qed.

Lemma string_app_inj_l a b c : (a ++ b = a ++ c)%string -> b = c.
Proof. induction a as [|x a IH]; simpl; [auto|]. intros H. injection H. exact IH. Qed.

Lemma join_ne a b c : b <> c -> join a b <> join a c.
Proof. unfold join. intros Hbc H. apply string_app_inj_l in H. injection H. exact Hbc. Qed.

Lemma kc_ensure_df root k c E : keeps_ca root k c (ensure_directories_and_files root E).
Proof.
  unfold ensure_directories_and_files.
  apply kc_bind; [apply kc_ensure_dirs|]. intros ok.
  apply kc_if; [apply kc_ret|].
  apply kc_bind; [apply kc_exists|]. intros e.
  apply kc_if; [apply kc_ret|].
  apply kc_try; [|eauto 10 with keeps].
  apply kc_bind; [|eauto 10 with keeps].
  apply kc_write; unfold CA_KEY, CA_CERT, SHARED_CA_DIR; apply join_ne; discriminate.
Qed.

(** C2: when both the CA key file and the CA certificate file already
    exist, [generate_ca] leaves both byte-identical and writes neither
    path (no key is generated, nothing is signed); in particular a second
    call after a first one that produced both files changes neither. *)
Theorem generate_ca_idempotent root E s k c :
  files s !! CA_KEY root = Some k ->
  files s !! CA_CERT root = Some c ->
  ca_untouched root k c s (snd (generate_ca root E s)).
Proof.
  intros Hk Hc. pose proof (kc_ensure_df root k c E s Hk Hc) as Hu.
  unfold generate_ca. unfold bind at 1.
  destruct (ensure_directories_and_files root E s) as [[ok|e] s1]; simpl in Hu; [|exact Hu].
  pose proof Hu as (Hk1 & Hc1 & _).
  apply (ca_untouched_trans _ _ _ _ s1); [exact Hu|].
  destruct ok; simpl.
  - unfold bind at 1 2, exists_, gets, path_exists. rewrite Hk1, Hc1. simpl.
    apply kc_log; assumption.
  - apply kc_log; assumption.
Qed.

Lemma generate_ca_idempotent_witness :
  ca_untouched "/app" "KEY" VALID_PEM
    (mkFs (<[CA_KEY "/app" := "KEY"]> {[CA_CERT "/app" := VALID_PEM]}) ∅ [] [] [])
    (snd (generate_ca "/app" env_locked
            (mkFs (<[CA_KEY "/app" := "KEY"]> {[CA_CERT "/app" := VALID_PEM]}) ∅ [] [] []))).
Proof.
  apply generate_ca_idempotent; reflexivity.
Defined.

(** ** C3: the order of installs and trust-store refreshes *)

Lemma call_install_events root E src n s r s' :
  call_install root E src n s = (Ok r, s') ->
  events s' = (events s ++ [EvInstall n r])%list.
Proof.
  unfold call_install. intros H. inv_bind H r0 s1 Hi H.
  pose proof (keeps_ok _ _ _ _ (keeps_install_ca root E src n) Hi) as He.
  inv_bind H u s2 Hemit Hret. unfold emit, modify in Hemit. inversion Hemit; subst.
  unfold ret in Hret. inversion Hret; subst. simpl. rewrite He. reflexivity.
Qed.

Lemma install_sibling_events root E p n l s u s' :
  install_sibling root E p n l s = (Ok u, s') ->
  exists mid, events s' = (events s ++ mid)%list /\
              (mid = [] \/ exists r, mid = [EvInstall n r]).
Proof.
  unfold install_sibling. intros H. inv_bind H w s1 Hw H.
  pose proof (keeps_ok _ _ _ _ (keeps_wait_for root E p) Hw) as He.
  destruct w.
  - inv_bind H r s2 Hi Hl. pose proof (call_install_events _ _ _ _ _ _ _ Hi) as He2.
    exists [EvInstall n r]. split; [|right; eauto].
    assert (He3 : events s' = events s2)
      by (destruct r; exact (keeps_ok _ _ _ _ (keeps_log root E _) Hl)).
    rewrite He3, He2, He. reflexivity.
  - exists []. split; [|left; reflexivity]. rewrite app_nil_r.
    rewrite (keeps_ok _ _ _ _ (keeps_log root E _) H). exact He.
Qed.

(** After the [EvRefresh] it records, a refresh adds no event. *)
Lemma refresh_events (m : M fs unit) s u s' :
  keeps_events m ->
  bind (emit EvRefresh) (fun _ => m) s = (Ok u, s') ->
  events s' = (events s ++ [EvRefresh])%list.
Proof.
  intros Hm H. inv_bind H u0 s1 Hemit Hr. unfold emit, modify in Hemit.
  inversion Hemit; subst. rewrite (keeps_ok _ _ _ _ Hm Hr). reflexivity.
Qed.

Lemma keeps_refresh_tail_checked root E :
  keeps_events (match refresh_rc E with
                | None => raise "FileNotFoundError: update-ca-certificates"
                | Some rc =>
                    bind (run_refresh E) (fun _ =>
                      if Z.eqb rc 0 then log root E "CA certificates updated successfully"
                      else log root E "Failed to update CA certificates: CalledProcessError")
                end).
Proof. destruct (refresh_rc E); eauto 10 with keeps. Qed.

Lemma keeps_refresh_tail_unchecked root E :
  keeps_events (match refresh_rc E with
                | None => raise "FileNotFoundError: update-ca-certificates"
                | Some _ => bind (run_refresh E) (fun _ => log root E "CA certificates updated.")
                end).
Proof. destruct (refresh_rc E); eauto 10 with keeps. Qed.

(** The calls of [auto_install_all_cas] that install a sibling CA. *)
Definition sibling_install (e : event) : Prop :=
  exists r, e = EvInstall "mitmproxy-ca.crt" r \/ e = EvInstall "squid-ca.crt" r.

Lemma auto_install_events root E s u s' :
  auto_install_all_cas root E s = (Ok u, s') ->
  exists mid, Forall sibling_install mid /\
    events s' = (events s ++ mid ++ (if is_linux E then [EvRefresh] else []))%list.
Proof.
  unfold auto_install_all_cas. intros H.
  inv_bind H u0 s1 Hl0 H. rewrite <- (keeps_ok _ _ _ _ (keeps_log root E _) Hl0).
  inv_bind H u1 s2 Hm H. destruct (install_sibling_events _ _ _ _ _ _ _ _ Hm) as [m1 [Hm1 Hs1]].
  inv_bind H u2 s3 Hq H. destruct (install_sibling_events _ _ _ _ _ _ _ _ Hq) as [m2 [Hm2 Hs2]].
  inv_bind H u3 s4 Hr Hl.
  rewrite (keeps_ok _ _ _ _ (keeps_log root E _) Hl).
  exists (m1 ++ m2)%list. split.
  - apply Forall_app. split.
    + destruct Hs1 as [->|[r ->]]; repeat constructor. exists r; left; reflexivity.
    + destruct Hs2 as [->|[r ->]]; repeat constructor. exists r; right; reflexivity.
  - destruct (is_linux E).
    + unfold refresh_checked in Hr.
      rewrite (refresh_events _ _ _ _ (keeps_refresh_tail_checked root E) Hr).
      rewrite Hm2, Hm1, <- !app_assoc. reflexivity.
    + unfold ret in Hr. inversion Hr; subst. rewrite app_nil_r, Hm2, Hm1, app_assoc.
      reflexivity.
Qed.

(** The property C3 asks for: every invocation of
    [update-ca-certificates] in the trace comes after an [install_ca]
    call that returned true. *)
Definition refresh_only_after_install (tr : list event) : Prop :=
  forall pre post, tr = (pre ++ EvRefresh :: post)%list ->
    exists n, In (EvInstall n true) pre.

(** C3, as stated, fails: on Linux in automatic mode, with the own CA
    missing (nothing could be created) and no sibling CA appearing, the
    run completes normally and still invokes [update-ca-certificates],
    although no [install_ca] call returned true. *)
Lemma auto_refresh_counterexample :
  fst (script "/app" env_locked true fs_init) = Ok tt /\
  is_linux env_locked = true /\
  ~ refresh_only_after_install (events (snd (script "/app" env_locked true fs_init))).
Proof.
  split; [vm_compute; reflexivity|]. split; [reflexivity|].
  intros H. specialize (H [EvInstall "proxy-ja4-ca.crt" false] []).
  destruct H as [n [Hin|[]]]; [vm_compute; reflexivity|].
  discriminate.
Qed.

(** C3 (amended): in automatic mode on Linux, a run that completes calls
    [install_ca] for its own CA first and invokes [update-ca-certificates]
    right after it only if that call returned true; it then tries the
    sibling CAs and invokes [update-ca-certificates] once more at the end
    of [auto_install_all_cas], whatever the install results. On other
    systems it never invokes [update-ca-certificates]. *)
Theorem auto_bootstrap_refresh_order root E s s' :
  script root E true s = (Ok tt, s') ->
  (is_linux E = true ->
   exists r0 mid,
     events s' = (events s ++ [EvInstall "proxy-ja4-ca.crt" r0] ++
                  (if r0 then [EvRefresh] else []) ++ mid ++ [EvRefresh])%list /\
     Forall sibling_install mid) /\
  (is_linux E = false ->
   exists mid, events s' = (events s ++ mid)%list /\ Forall sibling_install mid).
Proof.
  unfold script. intros H.
  inv_bind H u0 s1 Hg H. rewrite <- (keeps_ok _ _ _ _ (keeps_generate_ca root E) Hg). clear Hg.
  inv_bind H c s2 Hc H. unfold exists_, gets in Hc. inversion Hc; subst s2. clear Hc.
  inv_bind H k s3 Hk H. unfold exists_, gets in Hk. inversion Hk; subst s3. clear Hk.
  inv_bind H u1 s4 Hv H.
  assert (Hv' : events s4 = events s1).
  { refine (keeps_ok _ _ _ _ _ Hv). apply keeps_if; [apply keeps_log|].
    apply keeps_bind; [apply keeps_is_valid|]. intros v. apply keeps_if; apply keeps_log. }
  rewrite <- Hv'. clear Hv Hv'.
  inv_bind H u2 s5 Hst2 H.
  inv_bind H u3 s6 Hl H. pose proof (keeps_ok _ _ _ _ (keeps_log root E _) Hl) as E6. clear Hl.
  inv_bind H u4 s7 Ha Hl. rewrite (keeps_ok _ _ _ _ (keeps_log root E _) Hl). clear Hl.
  destruct (auto_install_events _ _ _ _ _ Ha) as [mid [Hmid Hev]]. rewrite Hev, E6.
  clear Ha Hev E6.
  split; intros Hlin; rewrite Hlin in *.
  - inv_bind Hst2 r0 s8 Hi Hr. pose proof (call_install_events _ _ _ _ _ _ _ Hi) as Es8.
    exists r0, mid. split; [|exact Hmid].
    destruct r0.
    + unfold refresh_unchecked in Hr.
      rewrite (refresh_events _ _ _ _ (keeps_refresh_tail_unchecked root E) Hr), Es8.
      rewrite <- !app_assoc. reflexivity.
    + rewrite (keeps_ok _ _ _ _ (keeps_log root E _) Hr), Es8. rewrite <- !app_assoc. reflexivity.
  - exists mid. split; [|exact Hmid].
    rewrite (keeps_ok _ _ _ _ (keeps_log root E _) Hst2), app_nil_r. reflexivity.
Qed.

Lemma auto_bootstrap_refresh_order_witness :
  script "/app" env_locked true fs_init =
    (Ok tt, snd (script "/app" env_locked true fs_init)) /\
  exists r0 mid,
    events (snd (script "/app" env_locked true fs_init)) =
      (events fs_init ++ [EvInstall "proxy-ja4-ca.crt" r0] ++
       (if r0 then [EvRefresh] else []) ++ mid ++ [EvRefresh])%list /\
    Forall sibling_install mid.
Proof.
  assert (H : script "/app" env_locked true fs_init =
              (Ok tt, snd (script "/app" env_locked true fs_init)))
    by (vm_compute; reflexivity).
  split; [exact H|].
  exact (proj1 (auto_bootstrap_refresh_order _ _ _ _ H) eq_refl).
Defined.

End InstallProxyCAsFacts.

(* ================================================================== *)
(** * Properties of [wait_for_file] *)
Module WaitForFileFacts.
Import Py InstallProxyCAs InstallProxyCAsFacts WaitForFile.

(** The number of sleeps after which the deadline has surely passed. *)
Definition wait_bound (max_wait : Z) : nat := S (Z.to_nat (max_wait / 2)).

(** Exact timing: the first check at [start_time], each [time.time()]
    read at its check, and each sleep exactly two seconds. *)
Definition exact_timing (t0 : Z) (t_check t_read : nat -> Z) : Prop :=
  t_check 0%nat = t0 /\ (forall j, t_read j = t_check j) /\
  (forall j, t_check (S j) = t_read j + POLL_MS).

Section Poll.
Variables (exists_at : Z -> bool) (t0 : Z) (t_check t_read : nat -> Z) (max_wait : Z).
(** Time does not run backwards, and [time.sleep(2)] suspends for at
    least two seconds. *)
Hypothesis Hstart : t0 <= t_check 0%nat.
Hypothesis Hread : forall j, t_check j <= t_read j.
Hypothesis Hsleep : forall j, t_read j + POLL_MS <= t_check (S j).

Lemma read_grow k : t0 + 2000 * Z.of_nat k <= t_read k.
Proof.
  assert (Hc : forall j, t0 + 2000 * Z.of_nat j <= t_check j).
  { induction j as [|j IH]; [simpl; lia|].
    specialize (Hsleep j). specialize (Hread j). unfold POLL_MS in Hsleep. lia. }
  specialize (Hc k). specialize (Hread k). lia.
Qed.

Lemma past_deadline k : (wait_bound max_wait <= k)%nat -> t_read k - t0 > max_wait * 1000.
Proof.
  intros Hk. pose proof (read_grow k) as Hg. unfold wait_bound in Hk.
  assert (Hd : 2 * (max_wait / 2) + max_wait mod 2 = max_wait) by (symmetry; apply Z.div_mod; lia).
  pose proof (Z.mod_pos_bound max_wait 2 ltac:(lia)).
  destruct (Z.le_gt_cases 0 (max_wait / 2)).
  - assert (Z.of_nat k >= max_wait / 2 + 1) by lia. lia.
  - assert (Z.of_nat k >= 1) by lia. lia.
Qed.

Lemma wait_loop_terminates fuel k :
  (wait_bound max_wait <= k + fuel)%nat ->
  exists b k', wait_loop exists_at t0 t_check t_read max_wait fuel k = Some (b, k') /\
               (k <= k')%nat /\ (k' <= Nat.max k (wait_bound max_wait))%nat.
Proof.
  revert k. induction fuel as [|fuel IH]; intros k Hk; simpl.
  - destruct (exists_at (t_check k)); [exists true, k; split; [reflexivity|lia]|].
    pose proof (past_deadline k ltac:(lia)) as Hp.
    replace (t_read k - t0 >? max_wait * 1000) with true by (symmetry; apply Z.gtb_lt; lia).
    exists false, k. split; [reflexivity|lia].
  - destruct (exists_at (t_check k)); [exists true, k; split; [reflexivity|lia]|].
    destruct (t_read k - t0 >? max_wait * 1000) eqn:Ht;
      [exists false, k; split; [reflexivity|lia]|].
    assert (k < wait_bound max_wait)%nat.
    { destruct (Nat.lt_ge_cases k (wait_bound max_wait)) as [|Hge]; [assumption|].
      pose proof (past_deadline k Hge). rewrite Z.gtb_ltb, Z.ltb_ge in Ht. lia. }
    destruct (IH (S k) ltac:(lia)) as [b [k' [Hl [H1 H2]]]].
    exists b, k'. split; [exact Hl|lia].
Qed.

Lemma wait_loop_result fuel k b k' :
  wait_loop exists_at t0 t_check t_read max_wait fuel k = Some (b, k') ->
  (k <= k')%nat /\
  (forall j, (k <= j < k')%nat ->
     exists_at (t_check j) = false /\ t_read j - t0 <= max_wait * 1000) /\
  (b = true <-> exists_at (t_check k') = true) /\
  (b = false -> t_read k' - t0 > max_wait * 1000).
Proof.
  revert k. induction fuel as [|fuel IH]; intros k; simpl.
  - destruct (exists_at (t_check k)) eqn:He.
    { intros H; inversion H; subst. repeat split; auto; try lia; discriminate. }
    destruct (t_read k - t0 >? max_wait * 1000) eqn:Ht; [|discriminate].
    intros H; inversion H; subst. apply Z.gtb_lt in Ht.
    repeat split; auto; try lia; try discriminate; intros; try lia.
    rewrite He in *. discriminate.
  - destruct (exists_at (t_check k)) eqn:He.
    { intros H; inversion H; subst. repeat split; auto; try lia; discriminate. }
    destruct (t_read k - t0 >? max_wait * 1000) eqn:Ht.
    { intros H; inversion H; subst. apply Z.gtb_lt in Ht.
      repeat split; auto; try lia; try discriminate; intros; try lia.
      rewrite He in *. discriminate. }
    intros H. destruct (IH _ H) as [Hle [Hbefore Hres]].
    split; [lia|]. split; [|exact Hres].
    intros j Hj. destruct (Nat.eq_dec j k) as [->|Hne].
    + rewrite Z.gtb_ltb, Z.ltb_ge in Ht. auto.
    + apply Hbefore. lia.
Qed.

(** C4 (amended): with time never running backwards and every
    [time.sleep(2)] lasting at least two seconds, the poll ends (within
    [wait_bound max_wait] sleeps, so it cannot loop forever); each earlier
    check found no file and was followed by a reading still before the
    deadline; the result is true exactly when the last check found the
    file, and false only once a reading shows more than [max_wait]
    seconds elapsed. [wait_for_file] returns that result, with the lines
    [Waiting for ...] and [Found ...] or [Timeout waiting for ...]
    appended to the log, when [log] can append its lines; otherwise its
    first [log] call raises, so it does raise then. With exact two-second
    sleeps the last reading is within [max_wait + 2] seconds of the
    start; if moreover the file, once created, stays, false means it did
    not exist at any time up to the deadline. *)
Theorem wait_for_file_spec root E path fuel s :
  (wait_bound max_wait <= fuel)%nat ->
  exists b k,
    wait_loop exists_at t0 t_check t_read max_wait fuel 0 = Some (b, k) /\
    (k <= wait_bound max_wait)%nat /\
    (forall j, (j < k)%nat ->
       exists_at (t_check j) = false /\ t_read j - t0 <= max_wait * 1000) /\
    (b = true <-> exists_at (t_check k) = true) /\
    (b = false -> t_read k - t0 > max_wait * 1000) /\
    (can_log root E s = true ->
     exists s', wait_for_file root E path exists_at t0 t_check t_read max_wait fuel s =
                  (Ok (Some (b, k)), s') /\
                logs s' = (logs s ++ [("Waiting for " ++ path ++ "...")%string;
                                      (if b then "Found " ++ path
                                       else "Timeout waiting for " ++ path)%string])%list) /\
    (can_log root E s = false ->
     exists e, fst (wait_for_file root E path exists_at t0 t_check t_read max_wait fuel s) = Exc e /\
               log_error root e) /\
    (exact_timing t0 t_check t_read -> 0 <= max_wait ->
       t_read k - t0 <= max_wait * 1000 + POLL_MS) /\
    (exact_timing t0 t_check t_read ->
     (forall t t', t <= t' -> exists_at t = true -> exists_at t' = true) ->
       b = false -> forall t, t <= t0 + max_wait * 1000 -> exists_at t = false).
Proof.
  intros Hf.
  destruct (wait_loop_terminates fuel 0 ltac:(lia)) as [b [k [Hl [_ Hk]]]].
  exists b, k.
  destruct (wait_loop_result _ _ _ _ Hl) as [_ [Hbefore [Hres Hfalse]]].
  split; [exact Hl|]. split; [lia|].
  split; [intros j Hj; apply Hbefore; lia|].
  split; [exact Hres|]. split; [exact Hfalse|].
  assert (Hw : wait_for_file root E path exists_at t0 t_check t_read max_wait fuel s =
    bind (log root E ("Waiting for " ++ path ++ "..."))
      (fun _ => bind (log root E (if b then "Found " ++ path else "Timeout waiting for " ++ path))
                     (fun _ => ret (Some (b, k)))) s).
  { unfold wait_for_file. rewrite Hl. destruct b; reflexivity. }
  destruct (log_spec root E ("Waiting for " ++ path ++ "...") s) as [Hok1 Hko1].
  split.
  { intros Hc. rewrite Hw. unfold bind at 1. rewrite (Hok1 Hc).
    destruct (log_spec root E (if b then "Found " ++ path else "Timeout waiting for " ++ path)
                (add_log root ("Waiting for " ++ path ++ "...") s)) as [Hok2 _].
    unfold bind. rewrite (Hok2 (can_log_add _ _ _ _ Hc)).
    eexists. split; [reflexivity|]. simpl. rewrite <- app_assoc. reflexivity. }
  split.
  { intros Hc. destruct (Hko1 Hc) as [e [He [Hle _]]]. exists e.
    rewrite Hw. unfold bind at 1. rewrite He. split; [reflexivity|exact Hle]. }
  split.
  - intros (H0 & Hrd & Hsl) Hmax. unfold POLL_MS in *.
    destruct k as [|k].
    + rewrite Hrd, H0. lia.
    + destruct (Hbefore k ltac:(lia)) as [_ Hd].
      rewrite Hrd, Hsl. lia.
  - intros (H0 & Hrd & Hsl) Hmono Hb t Ht. destruct (exists_at t) eqn:He; [|reflexivity].
    pose proof (Hfalse Hb) as Hlate. rewrite Hrd in Hlate.
    assert (Hk' : exists_at (t_check k) = true) by (apply (Hmono t); [lia|exact He]).
    apply Hres in Hk'. congruence.
Qed.

End Poll.

(** Checks every two seconds from time 0, each read at its check. *)
Definition clk_exact (k : nat) : Z := 2000 * Z.of_nat k.

Example wait_six_seconds :
  wait_loop (fun _ => false) 0 clk_exact clk_exact 6 10 0 = Some (false, 4%nat).
Proof. reflexivity. Qed.

(** C4, as stated, fails: [wait_for_file] can raise. With [logs] a
    regular file, its first [log] call raises before any polling. *)
Lemma wait_for_file_raises :
  fst (wait_for_file "/app" env_locked "/f" (fun _ => true) 0 clk_exact clk_exact 60 40
         (fs_bad_logdir "/x" "")) =
    Exc "OSError: cannot open /app/logs/install_proxy_cas.log".
Proof. vm_compute. reflexivity. Qed.

Lemma wait_for_file_spec_witness :
  0 <= clk_exact 0%nat /\
  (forall k, clk_exact k <= clk_exact k) /\
  (forall k, clk_exact k + POLL_MS <= clk_exact (S k)) /\
  (wait_bound 6 <= 4)%nat /\
  exists b k, wait_loop (fun t => 5000 <=? t) 0 clk_exact clk_exact 6 4 0 = Some (b, k) /\
              (k <= wait_bound 6)%nat.
Proof.
  assert (H0 : 0 <= clk_exact 0%nat) by (unfold clk_exact; lia).
  assert (Hr : forall k, clk_exact k <= clk_exact k) by (intros; lia).
  assert (Hs : forall k, clk_exact k + POLL_MS <= clk_exact (S k)).
  { intros k. unfold clk_exact, POLL_MS. lia. }
  assert (Hb : (wait_bound 6 <= 4)%nat) by (vm_compute; lia).
  split; [exact H0|]. split; [exact Hr|]. split; [exact Hs|]. split; [exact Hb|].
  destruct (wait_for_file_spec (fun t => 5000 <=? t) 0 clk_exact clk_exact 6 H0 Hr Hs
              "/app" env_locked "/f" 4 fs_init Hb)
    as [b [k [Hw [Hk _]]]].
  exists b, k. split; [exact Hw|exact Hk].
Defined.

End WaitForFileFacts.
(* ================================================================== *)
(** * capture.py: stopping and starting a capture *)
Module CaptureFacts.
Import Py PyFacts Capture.

(** What [check_container_running] concludes from [docker ps]. *)
Definition container_running (E : cenv) : bool :=
  match docker E PS_CMD with
  | Ran out _ _ => negb (String.eqb (PyStr.str_strip out) EmptyString)
  | RunError _ => false
  end.

(** [log] succeeds at once: [LOGDIR] is a directory and the log file can
    be appended to. *)
Definition log_ready (E : cenv) (s : cfs) : bool :=
  (bool_decide (LOGDIR E ∈ cdirs s) && clog_ok E)%bool.

(** The exceptions [log] raises. *)
Definition log_error (E : cenv) (e : string) : Prop :=
  e = ("OSError: cannot create " ++ LOGDIR E)%string \/
  e = ("OSError: cannot open " ++ LOGFILE E)%string.

Definition push_cmd (c : list string) (s : cfs) : cfs :=
  mkCfs (cfiles s) (cdirs s) (cmds s ++ [c])%list (clogs s).

(** The file-name pattern [capture_<YYYYMMDD_HHMMSS>.pcap]: the prefix
    [capture_], eight decimal digits, [_], six decimal digits, [.pcap]. *)
Definition is_digit (c : ascii) : bool :=
  (Nat.leb 48 (nat_of_ascii c) && Nat.leb (nat_of_ascii c) 57)%bool.

Fixpoint strip_prefix (pre s : string) : option string :=
  match pre, s with
  | EmptyString, _ => Some s
  | String c pre', String d s' => if Ascii.eqb c d then strip_prefix pre' s' else None
  | String _ _, EmptyString => None
  end.

Fixpoint take_digits (n : nat) (s : string) : option string :=
  match n with
  | O => Some s
  | S n' => match s with
            | String c s' => if is_digit c then take_digits n' s' else None
            | EmptyString => None
            end
  end.

Definition is_capture_name (s : string) : bool :=
  match strip_prefix "capture_" s with
  | None => false
  | Some r =>
      match take_digits 8 r with
      | Some (String c r2) =>
          (Ascii.eqb c "_"%char &&
           match take_digits 6 r2 with
           | Some r3 => String.eqb r3 ".pcap"
           | None => false
           end)%bool
      | _ => false
      end
  end.

(** A computation that only creates directories, appends commands,
    raises nothing but a failing [log], and returns whenever [log] is
    ready. *)
Definition wb {A} (E : cenv) (m : M cfs A) : Prop :=
  forall s, cdirs s ⊆ cdirs (snd (m s)) /\
    (exists l, cmds (snd (m s)) = (cmds s ++ l)%list) /\
    (forall e, fst (m s) = Exc e -> log_error E e) /\
    (log_ready E s = true -> exists a, fst (m s) = Ok a).

(** The same, with no change to the local files and no new directory
    but [LOGDIR]. *)
Definition lf {A} (E : cenv) (m : M cfs A) : Prop :=
  wb E m /\ forall s, cfiles (snd (m s)) = cfiles s /\
    cdirs (snd (m s)) ⊆ {[LOGDIR E]} ∪ cdirs s.

(** A computation that only creates directories and appends commands. *)
Definition grows {A} (m : M cfs A) : Prop :=
  forall s, cdirs s ⊆ cdirs (snd (m s)) /\
    exists l, cmds (snd (m s)) = (cmds s ++ l)%list.

Lemma path_exists_dir p s : p ∈ cdirs s -> path_exists p s = true.
Proof.
  intros Hp. unfold path_exists. destruct (cfiles s !! p); [reflexivity|].
  apply bool_decide_eq_true. exact Hp.
Qed.

Lemma path_exists_grow p s s' :
  cfiles s' = cfiles s -> cdirs s ⊆ cdirs s' -> path_exists p s = true -> path_exists p s' = true.
Proof.
  unfold path_exists. intros Hf Hd. rewrite Hf. destruct (cfiles s !! p); [auto|].
  rewrite !bool_decide_eq_true. set_solver.
Qed.

Lemma log_ready_grow E s s' :
  cdirs s ⊆ cdirs s' -> log_ready E s = true -> log_ready E s' = true.
Proof.
  unfold log_ready. intros Hd H. apply andb_prop in H as [H1 H2].
  rewrite H2, andb_true_r. apply bool_decide_eq_true in H1.
  apply bool_decide_eq_true. set_solver.
Qed.

Lemma log_ready_push E c s : log_ready E (push_cmd c s) = log_ready E s.
Proof. reflexivity. Qed.

(** Everything [log] can do. *)
Lemma clog_spec E msg s :
  cfiles (snd (log E msg s)) = cfiles s /\ cmds (snd (log E msg s)) = cmds s /\
  cdirs s ⊆ cdirs (snd (log E msg s)) /\
  cdirs (snd (log E msg s)) ⊆ {[LOGDIR E]} ∪ cdirs s /\
  (forall e, fst (log E msg s) = Exc e -> log_error E e) /\
  (log_ready E s = true ->
   log E msg s = (Ok tt, mkCfs (cfiles s) (cdirs s) (cmds s) (clogs s ++ [msg])%list)).
Proof.
  unfold log, bind, exists_, gets, makedirs, append_log, modify, raise, ret, log_ready, log_error.
  destruct (path_exists (LOGDIR E) s) eqn:Hp.
  - destruct (bool_decide (LOGDIR E ∈ cdirs s) && clog_ok E)%bool eqn:Ha; simpl;
      (split; [reflexivity|]); (split; [reflexivity|]);
      (split; [set_solver|]); (split; [set_solver|]);
      (split; [intros e He; try discriminate; injection He as <-; right; reflexivity|]);
      intros H; [reflexivity|discriminate].
  - assert (Hn : bool_decide (LOGDIR E ∈ cdirs s) = false).
    { unfold path_exists in Hp. destruct (cfiles s !! LOGDIR E); [discriminate|exact Hp]. }
    rewrite Hn. simpl.
    destruct (cmkdir_ok E (LOGDIR E)); simpl.
    + rewrite bool_decide_eq_true_2 by set_solver. simpl.
      destruct (clog_ok E); simpl;
        (split; [reflexivity|]); (split; [reflexivity|]);
        (split; [set_solver|]); (split; [set_solver|]);
        (split; [intros e He; try discriminate; injection He as <-; right; reflexivity|]);
        intros H; discriminate.
    + (split; [reflexivity|]); (split; [reflexivity|]);
        (split; [set_solver|]); (split; [set_solver|]);
        (split; [intros e He; injection He as <-; left; reflexivity|]);
        intros H; discriminate.
Qed.

Lemma log_ok_frame E msg s u s' :
  log E msg s = (Ok u, s') ->
  cfiles s' = cfiles s /\ cmds s' = cmds s /\ cdirs s ⊆ cdirs s'.
Proof.
  intros H. destruct (clog_spec E msg s) as (Hf & Hc & Hd & _). rewrite H in Hf, Hc, Hd. auto.
Qed.

(** ** Composing the frame properties *)

Lemma lf_wb {A} E (m : M cfs A) : lf E m -> wb E m.
Proof. intros [H _]. exact H. Qed.

Lemma wb_grows {A} E (m : M cfs A) : wb E m -> grows m.
Proof. intros H s. destruct (H s) as (H1 & H2 & _). auto. Qed.

Lemma lf_log E msg : lf E (log E msg).
Proof.
  split; intros s; destruct (clog_spec E msg s) as (Hf & Hc & Hd1 & Hd2 & He & Hr); [|auto].
  split; [exact Hd1|]. split; [exists []; rewrite app_nil_r; exact Hc|].
  split; [exact He|]. intros Hl. rewrite (Hr Hl). eexists; reflexivity.
Qed.

Lemma lf_ret {A} E (a : A) : lf E (ret a).
Proof.
  unfold ret. split; intros s; simpl; [|split; [reflexivity|set_solver]].
  split; [set_solver|]. split; [exists []; rewrite app_nil_r; reflexivity|].
  split; [discriminate|]. intros _; eauto.
Qed.

Lemma lf_gets {A} E (f : cfs -> A) : lf E (gets f).
Proof.
  unfold gets. split; intros s; simpl; [|split; [reflexivity|set_solver]].
  split; [set_solver|]. split; [exists []; rewrite app_nil_r; reflexivity|].
  split; [discriminate|]. intros _; eauto.
Qed.

Lemma lf_bind {A B} E (m : M cfs A) (k : A -> M cfs B) :
  lf E m -> (forall a, lf E (k a)) -> lf E (bind m k).
Proof.
  intros [Hm Hm'] Hk. split; intros s; unfold bind;
    destruct (Hm s) as (Hd1 & [l1 Hc1] & He1 & Hr1); destruct (Hm' s) as (Hf1 & Hd1');
    destruct (m s) as [[a|e] s1]; simpl in *.
  - destruct (Hk a) as [Hk1 _]. destruct (Hk1 s1) as (Hd2 & [l2 Hc2] & He2 & Hr2).
    split; [set_solver|]. split; [exists (l1 ++ l2)%list; rewrite Hc2, Hc1, app_assoc; reflexivity|].
    split; [exact He2|]. intros Hl. apply Hr2. apply (log_ready_grow E s); assumption.
  - split; [exact Hd1|]. split; [eauto|].
    split; [intros e' He'; injection He' as <-; apply He1; reflexivity|].
    intros Hl. destruct (Hr1 Hl) as [a Ha]. discriminate.
  - destruct (Hk a) as [_ Hk2]. destruct (Hk2 s1) as [Hf2 Hd2].
    split; [congruence|set_solver].
  - auto.
Qed.

Lemma wb_bind {A B} E (m : M cfs A) (k : A -> M cfs B) :
  wb E m -> (forall a, wb E (k a)) -> wb E (bind m k).
Proof.
  intros Hm Hk s; unfold bind;
    destruct (Hm s) as (Hd1 & [l1 Hc1] & He1 & Hr1); destruct (m s) as [[a|e] s1]; simpl in *.
  - destruct (Hk a s1) as (Hd2 & [l2 Hc2] & He2 & Hr2).
    split; [set_solver|]. split; [exists (l1 ++ l2)%list; rewrite Hc2, Hc1, app_assoc; reflexivity|].
    split; [exact He2|]. intros Hl. apply Hr2. apply (log_ready_grow E s); assumption.
  - split; [exact Hd1|]. split; [eauto|].
    split; [intros e' He'; injection He' as <-; apply He1; reflexivity|].
    intros Hl. destruct (Hr1 Hl) as [a Ha]. discriminate.
Qed.

Lemma grows_bind {A B} (m : M cfs A) (k : A -> M cfs B) :
  grows m -> (forall a, grows (k a)) -> grows (bind m k).
Proof.
  intros Hm Hk s; unfold bind;
    destruct (Hm s) as (Hd1 & [l1 Hc1]); destruct (m s) as [[a|e] s1]; simpl in *; [|eauto].
  destruct (Hk a s1) as (Hd2 & [l2 Hc2]).
  split; [set_solver|]. exists (l1 ++ l2)%list; rewrite Hc2, Hc1, app_assoc; reflexivity.
Qed.

(** [try: body except Exception as err: handler(err)] where the body only
    grows the state and the handler is well-behaved. *)
Lemma wb_try {A} E (m : M cfs A) (h : string -> M cfs A) :
  grows m -> (forall e, wb E (h e)) -> wb E (try_except m h).
Proof.
  intros Hm Hh s. unfold try_except.
  destruct (Hm s) as (Hd1 & [l1 Hc1]). destruct (m s) as [[a|e] s1]; simpl in *.
  - split; [exact Hd1|]. split; [eauto|]. split; [discriminate|eauto].
  - destruct (Hh e s1) as (Hd2 & [l2 Hc2] & He2 & Hr2).
    split; [set_solver|]. split; [exists (l1 ++ l2)%list; rewrite Hc2, Hc1, app_assoc; reflexivity|].
    split; [exact He2|]. intros Hl. apply Hr2. apply (log_ready_grow E s); assumption.
Qed.

Lemma grows_makedirs E p : grows (makedirs E p).
Proof.
  unfold makedirs, modify, raise. intros s. destruct (cmkdir_ok E p); simpl;
    (split; [set_solver|exists []; rewrite app_nil_r; reflexivity]).
Qed.

Lemma wb_getsize E p : wb E (getsize E p).
Proof. exact (lf_wb E _ (lf_gets E _)). Qed.

Lemma cp_effect_spec E cmd s :
  fst (cp_effect E cmd s) = Ok tt /\ cdirs s ⊆ cdirs (snd (cp_effect E cmd s)) /\
  cmds (snd (cp_effect E cmd s)) = cmds s.
Proof.
  unfold cp_effect, modify, ret.
  destruct cmd as [|a [|b [|c [|d [|x l]]]]]; simpl; try (split; [reflexivity|split; [set_solver|reflexivity]]).
  destruct (String.eqb a "docker" && String.eqb b "cp")%bool; simpl;
    [|split; [reflexivity|split; [set_solver|reflexivity]]].
  destruct (docker_cp E c d (cfiles s) (cdirs s)) as [f' d']. simpl.
  split; [reflexivity|split; [set_solver|reflexivity]].
Qed.

Lemma run_cmd_eq E cmd s :
  run_cmd E cmd s =
  match docker E cmd with
  | Ran out err rc => bind (cp_effect E cmd) (fun _ => ret (out, err, rc)) (push_cmd cmd s)
  | RunError msg =>
      bind (log E ("Exception running command: " ++ msg)) (fun _ => ret ("", msg, -1))
        (push_cmd cmd s)
  end.
Proof. unfold run_cmd. destruct (docker E cmd); reflexivity. Qed.

Lemma wb_run_cmd E cmd : wb E (run_cmd E cmd).
Proof.
  intros s. rewrite run_cmd_eq.
  destruct (docker E cmd) as [out err rc|msg].
  - unfold bind. destruct (cp_effect_spec E cmd (push_cmd cmd s)) as (H1 & H2 & H3).
    unfold push_cmd in *. destruct (cp_effect E cmd _) as [r s1]. simpl in *. subst r.
    unfold ret. simpl. split; [set_solver|]. split; [exists [cmd]; exact H3|].
    split; [discriminate|eauto].
  - destruct (lf_bind E _ _ (lf_log E ("Exception running command: " ++ msg))
                (fun _ => lf_ret E ("", msg, -1))) as [Hw _].
    destruct (Hw (push_cmd cmd s)) as (Hd & [l Hc] & He & Hr).
    unfold push_cmd in *. cbn [cdirs cmds cfiles] in Hd, Hc.
    split; [set_solver|]. split; [exists (cmd :: l); rewrite Hc, <- app_assoc; reflexivity|].
    split; [exact He|]. exact Hr.
Qed.

(** [run_cmd] on a command other than [docker cp]. *)
Lemma lf_run_cmd E cmd : (forall s, cp_effect E cmd s = (Ok tt, s)) -> lf E (run_cmd E cmd).
Proof.
  intros Hcp. split; [apply wb_run_cmd|]. intros s. rewrite run_cmd_eq.
  destruct (docker E cmd) as [out err rc|msg].
  - unfold bind. rewrite Hcp. simpl. split; [reflexivity|set_solver].
  - destruct (lf_bind E _ _ (lf_log E ("Exception running command: " ++ msg))
                (fun _ => lf_ret E ("", msg, -1))) as [_ Hl].
    destruct (Hl (push_cmd cmd s)) as [Hf Hd]. unfold push_cmd in *. cbn [cdirs cmds cfiles] in Hf, Hd.
    split; [exact Hf|exact Hd].
Qed.

Lemma wb_check E : wb E (check_container_running E).
Proof.
  unfold check_container_running. apply wb_bind; [apply wb_run_cmd|].
  intros [[out err] rc]. destruct (String.eqb _ _).
  - apply wb_bind; [apply lf_wb, lf_log|]. intros _. apply lf_wb, lf_ret.
  - apply lf_wb, lf_ret.
Qed.

Lemma wb_ensure E : wb E (ensure_capture_dir E).
Proof.
  unfold ensure_capture_dir. apply wb_bind; [apply lf_wb, lf_gets|]. intros [|].
  - apply lf_wb, lf_ret.
  - apply wb_try.
    + apply grows_bind; [apply grows_makedirs|]. intros _.
      apply (wb_grows E), wb_bind; [apply lf_wb, lf_log|]. intros _. apply lf_wb, lf_ret.
    + intros e. apply wb_bind; [apply lf_wb, lf_log|]. intros _. apply lf_wb, lf_ret.
Qed.

Lemma wb_copy E name : wb E (copy_pcap E name).
Proof.
  unfold copy_pcap. apply wb_bind; [apply wb_check|]. intros [|]; cbn [negb];
    [|apply lf_wb, lf_ret].
  apply wb_bind; [apply wb_ensure|]. intros [|]; cbn [negb]; [|apply lf_wb, lf_ret].
  apply wb_bind; [apply wb_run_cmd|]. intros [[out err] rc].
  destruct (negb (rc =? 0)).
  - apply wb_bind; [apply lf_wb, lf_log|]. intros _. apply lf_wb, lf_ret.
  - apply wb_bind; [apply lf_wb, lf_gets|]. intros [|].
    + apply wb_bind; [apply wb_getsize|]. intros z.
      apply wb_bind; [apply lf_wb, lf_log|]. intros _. apply lf_wb, lf_ret.
    + apply wb_bind; [apply lf_wb, lf_log|]. intros _. apply lf_wb, lf_ret.
Qed.

Lemma bind_unfold {S A B} (m : M S A) (k : A -> M S B) s :
  bind m k s = match m s with
               | (Ok a, s') => k a s'
               | (Exc e, s') => (Exc e, s')
               end.
Proof. reflexivity. Qed.

Lemma bind_of_ok {S A B} (m : M S A) (k : A -> M S B) s a s1 :
  m s = (Ok a, s1) -> bind m k s = k a s1.
Proof. intros H. unfold bind. rewrite H. reflexivity. Qed.

Lemma bind_cases {S A B} (m : M S A) (k : A -> M S B) s r s' :
  bind m k s = (r, s') ->
  (exists e, m s = (Exc e, s') /\ r = Exc e) \/
  (exists a s1, m s = (Ok a, s1) /\ k a s1 = (r, s')).
Proof.
  unfold bind. destruct (m s) as [[a|e] s1]; intros H; [right; eauto|].
  left. injection H as <- <-. eauto.
Qed.

Ltac solve_wb :=
  repeat first
    [ apply lf_wb; first [apply lf_log | apply lf_ret | apply lf_gets]
    | apply wb_check | apply wb_ensure | apply wb_run_cmd | apply wb_getsize
    | apply wb_copy | apply wb_bind
    | progress cbn [negb]
    | match goal with |- wb _ (if ?b then _ else _) => destruct b end
    | match goal with
      | |- forall _ : _ * _ * _, _ => intros [[? ?] ?]
      | |- forall _ : bool, _ => intros [|]
      | |- forall _, _ => intros ?
      end ].

Lemma run_cmd_records E cmd s :
  cmds (snd (run_cmd E cmd s)) = (cmds s ++ [cmd])%list.
Proof.
  rewrite run_cmd_eq. destruct (docker E cmd) as [out err rc|msg].
  - unfold bind. destruct (cp_effect_spec E cmd (push_cmd cmd s)) as (H1 & _ & H3).
    destruct (cp_effect E cmd (push_cmd cmd s)) as [r s1]. simpl in H1 |- *. subst r.
    exact H3.
  - unfold bind. destruct (clog_spec E ("Exception running command: " ++ msg) (push_cmd cmd s))
      as (_ & Hc & _).
    destruct (log E _ (push_cmd cmd s)) as [[u|e] s1]; exact Hc.
Qed.

Lemma run_cmd_ran E cmd out err rc s :
  docker E cmd = Ran out err rc -> (forall s, cp_effect E cmd s = (Ok tt, s)) ->
  run_cmd E cmd s = (Ok (out, err, rc), push_cmd cmd s).
Proof.
  intros Hd Hcp. rewrite run_cmd_eq, Hd. unfold bind. rewrite Hcp. reflexivity.
Qed.

(** A member of the command list stays there after any well-behaved
    continuation. *)
Lemma in_cmds_bind {A B} E (m : M cfs A) (k : A -> M cfs B) x s :
  (forall a, wb E (k a)) -> In x (cmds (snd (m s))) -> In x (cmds (snd (bind m k s))).
Proof.
  intros Hk Hin. unfold bind. destruct (m s) as [[a|e] s1]; simpl in *; [|exact Hin].
  destruct (Hk a s1) as (_ & [l Hc] & _). rewrite Hc. apply in_or_app. left. exact Hin.
Qed.

(** ** [check_container_running] *)

Lemma check_running_true E s :
  container_running E = true -> check_container_running E s = (Ok true, push_cmd PS_CMD s).
Proof.
  unfold container_running. destruct (docker E PS_CMD) as [out err rc|msg] eqn:Hd;
    [|discriminate].
  intros H. apply negb_true_iff in H.
  unfold check_container_running.
  rewrite (bind_of_ok _ _ _ _ _ (run_cmd_ran E PS_CMD out err rc s Hd (fun s => eq_refl))).
  cbv beta iota. rewrite H. reflexivity.
Qed.

Lemma log_ret_false E msg s r s' :
  bind (log E msg) (fun _ => ret false) s = (r, s') -> cmds s' = cmds s /\ r <> Ok true.
Proof.
  intros H. apply bind_cases in H as [(e & H1 & ->)|(u & s1 & H1 & H2)].
  - destruct (clog_spec E msg s) as (_ & Hc & _). rewrite H1 in Hc. split; [exact Hc|discriminate].
  - destruct (clog_spec E msg s) as (_ & Hc & _). rewrite H1 in Hc.
    unfold ret in H2. injection H2 as <- <-. split; [exact Hc|discriminate].
Qed.

Lemma check_not_running E s :
  container_running E = false ->
  cmds (snd (check_container_running E s)) = (cmds s ++ [PS_CMD])%list /\
  fst (check_container_running E s) <> Ok true.
Proof.
  unfold container_running. intros Hrun.
  destruct (check_container_running E s) as [r s'] eqn:Hc. simpl.
  unfold check_container_running in Hc.
  destruct (docker E PS_CMD) as [out err rc|msg] eqn:Hd.
  - apply negb_false_iff in Hrun.
    rewrite (bind_of_ok _ _ _ _ _ (run_cmd_ran E PS_CMD out err rc s Hd (fun s => eq_refl))) in Hc.
    cbv beta iota in Hc. rewrite Hrun in Hc.
    apply log_ret_false in Hc as [Hc Hr]. split; [exact Hc|exact Hr].
  - apply bind_cases in Hc as [(e & H1 & ->)|(a & s1 & H1 & H2)].
    + split; [|discriminate].
      pose proof (run_cmd_records E PS_CMD s) as Hm. rewrite H1 in Hm. exact Hm.
    + pose proof (run_cmd_records E PS_CMD s) as Hm. rewrite H1 in Hm. simpl in Hm.
      rewrite run_cmd_eq, Hd in H1.
      apply bind_cases in H1 as [(e & _ & Habs)|(u & s2 & _ & H1)]; [discriminate|].
      unfold ret in H1. injection H1 as <- <-.
      cbv beta iota in H2.
      assert (Hs : String.eqb (PyStr.str_strip "") "" = true) by reflexivity.
      rewrite Hs in H2. apply log_ret_false in H2 as [Hc Hr].
      split; [congruence|exact Hr].
Qed.

(** ** [ensure_capture_dir] and [copy_pcap] *)

Lemma ensure_ok E s :
  log_ready E s = true ->
  path_exists CAPTURES_DIR s = true \/ cmkdir_ok E CAPTURES_DIR = true ->
  exists s2, ensure_capture_dir E s = (Ok true, s2) /\ cmds s2 = cmds s.
Proof.
  intros Hl Hcase. unfold ensure_capture_dir.
  rewrite (bind_of_ok _ _ s (path_exists CAPTURES_DIR s) s) by reflexivity.
  cbv beta. destruct (path_exists CAPTURES_DIR s) eqn:He.
  - exists s. split; reflexivity.
  - destruct Hcase as [Hcase|Hmk]; [discriminate|].
    set (s1 := mkCfs (cfiles s) ({[CAPTURES_DIR]} ∪ cdirs s) (cmds s) (clogs s)).
    assert (H1 : makedirs E CAPTURES_DIR s = (Ok tt, s1)).
    { unfold makedirs. rewrite Hmk. reflexivity. }
    assert (Hl1 : log_ready E s1 = true) by (apply (log_ready_grow E s); [simpl; set_solver|exact Hl]).
    destruct (clog_spec E ("Created captures directory: " ++ CAPTURES_DIR) s1) as (_ & _ & _ & _ & _ & H2).
    specialize (H2 Hl1).
    unfold try_except. rewrite (bind_of_ok _ _ _ _ _ H1), (bind_of_ok _ _ _ _ _ H2).
    eexists. split; reflexivity.
Qed.

Lemma copy_retrieves E name s :
  container_running E = true -> log_ready E s = true ->
  path_exists CAPTURES_DIR s = true \/ cmkdir_ok E CAPTURES_DIR = true ->
  In (cp_cmd name) (cmds (snd (copy_pcap E name s))).
Proof.
  intros Hrun Hl Hcase. unfold copy_pcap.
  rewrite (bind_of_ok _ _ _ _ _ (check_running_true E s Hrun)). cbv beta. cbn [negb].
  destruct (ensure_ok E (push_cmd PS_CMD s)) as (s2 & H2 & Hc2);
    [rewrite log_ready_push; exact Hl|exact Hcase|].
  rewrite (bind_of_ok _ _ _ _ _ H2). cbv beta. cbn [negb].
  apply (in_cmds_bind E); [solve_wb|].
  rewrite run_cmd_records. apply in_or_app. right. left. reflexivity.
Qed.

(** ** [stop_tcpdump] without a [.current_capture] file *)

Lemma substring_all s : substring 0 (String.length s) s = s.
Proof. induction s as [|c s IH]; [reflexivity|simpl; rewrite IH; reflexivity]. Qed.

Lemma substring_app_r p q :
  substring (String.length p) (String.length q) (p ++ q) = q.
Proof. induction p as [|c p IH]; [apply substring_all|exact IH]. Qed.

Lemma string_length_app p q :
  String.length (p ++ q) = (String.length p + String.length q)%nat.
Proof. induction p as [|c p IH]; simpl; [reflexivity|rewrite IH; reflexivity]. Qed.

Lemma current_capture_not_logdir E : CURRENT_CAPTURE <> LOGDIR E.
Proof.
  unfold LOGDIR. intros H.
  assert (Hl : String.length (project_root E) = 22%nat).
  { apply (f_equal String.length) in H. rewrite string_length_app in H. simpl in H. lia. }
  apply (f_equal (substring 22 5)) in H.
  assert (Hs : substring 22 5 (project_root E ++ "/logs") = "/logs").
  { rewrite <- Hl. exact (substring_app_r (project_root E) "/logs"). }
  rewrite Hs in H. cbv in H. discriminate.
Qed.

Lemma current_capture_missing E s s3 :
  path_exists CURRENT_CAPTURE s = false -> cfiles s3 = cfiles s ->
  cdirs s3 ⊆ {[LOGDIR E]} ∪ cdirs s -> path_exists CURRENT_CAPTURE s3 = false.
Proof.
  unfold path_exists. intros Hp Hf Hd. rewrite Hf.
  destruct (cfiles s !! CURRENT_CAPTURE); [discriminate|].
  apply bool_decide_eq_false. apply bool_decide_eq_false in Hp.
  pose proof (current_capture_not_logdir E). set_solver.
Qed.

(** With the container up and no [.current_capture] file, [stop_tcpdump]
    either raises a log error (the log was not ready) or ends with
    [copy_pcap "test.pcap"] from a state with the same local files and
    at least the same directories. *)
Lemma stop_running E quiet s :
  container_running E = true -> path_exists CURRENT_CAPTURE s = false ->
  (exists e s', stop_tcpdump E quiet s = (Exc e, s') /\ log_error E e /\ log_ready E s = false) \/
  (exists s3, cfiles s3 = cfiles s /\ cdirs s ⊆ cdirs s3 /\
     stop_tcpdump E quiet s = copy_pcap E "test.pcap" s3).
Proof.
  intros Hrun Hcur. unfold stop_tcpdump.
  rewrite (bind_of_ok _ _ _ _ _ (check_running_true E s Hrun)). cbv beta. cbn [negb].
  set (s1 := push_cmd PS_CMD s).
  set (PK := ["docker"; "exec"; "capture_poc"; "pkill"; "-INT"; "tcpdump"]).
  destruct (lf_run_cmd E PK (fun s => eq_refl)) as [Hw1 Hf1].
  destruct (Hw1 s1) as (Hd1 & _ & He1 & Hr1). destruct (Hf1 s1) as [Hfa Hda].
  rewrite bind_unfold.
  destruct (run_cmd E PK s1) as [[[[o er] rc]|e] s2] eqn:H2; simpl in *.
  - cbv beta iota.
    set (b := (negb (rc =? 0) && negb quiet)%bool).
    assert (Hif : lf E (if b then log E "Failed to send SIGINT to tcpdump in capture_poc (it may not be running)"
                        else ret tt)) by (destruct b; [apply lf_log|apply lf_ret]).
    destruct Hif as [Hw3 Hf3].
    destruct (Hw3 s2) as (Hd3 & _ & He3 & Hr3). destruct (Hf3 s2) as [Hfb Hdb].
    rewrite bind_unfold.
    destruct ((if b then _ else ret tt) s2) as [[u|e] s3] eqn:H3; simpl in *.
    + right. exists s3.
      assert (Hf : cfiles s3 = cfiles s) by congruence.
      split; [exact Hf|]. split; [set_solver|].
      rewrite (bind_of_ok _ _ s3 "test.pcap" s3); [reflexivity|].
      unfold current_capture_name.
      rewrite (bind_of_ok _ _ s3 false s3).
      * reflexivity.
      * unfold exists_, gets. rewrite (current_capture_missing E s s3 Hcur Hf) by set_solver.
        reflexivity.
    + left. exists e, s3. split; [reflexivity|]. split; [apply He3; reflexivity|].
      destruct (log_ready E s) eqn:Hl; [|reflexivity].
      destruct Hr3 as [a Ha]; [|discriminate].
      apply (log_ready_grow E s1); [exact Hd1|]. exact Hl.
  - left. exists e, s2. split; [reflexivity|]. split; [apply He1; reflexivity|].
    destruct (log_ready E s) eqn:Hl; [|reflexivity].
    destruct Hr1 as [a Ha]; [exact Hl|discriminate].
Qed.

(** C9 (amended): with no [.current_capture] file, [stop_tcpdump] raises
    nothing but the error of a failing [log] (its [LOGDIR] cannot be
    created or its log file cannot be opened), and when [LOGDIR] is a
    directory and the log file can be appended to, it returns a boolean.
    In that case, if [docker ps] reports the capture container and the
    local captures directory exists or can be created, it resolves the
    name to [test.pcap] and runs
    [docker cp capture_poc:/captures/test.pcap ./captures/test.pcap].
    If the container is not reported running, it runs no command after
    [docker ps], and returns false when [log] works. *)
Theorem stop_without_pointer E quiet s :
  path_exists CURRENT_CAPTURE s = false ->
  (forall e, fst (stop_tcpdump E quiet s) = Exc e -> log_error E e) /\
  (log_ready E s = true ->
   exists b, fst (stop_tcpdump E quiet s) = Ok b /\
     (container_running E = true ->
      path_exists CAPTURES_DIR s = true \/ cmkdir_ok E CAPTURES_DIR = true ->
      In (cp_cmd "test.pcap") (cmds (snd (stop_tcpdump E quiet s))))) /\
  (container_running E = false ->
   cmds (snd (stop_tcpdump E quiet s)) = (cmds s ++ [PS_CMD])%list /\
   (log_ready E s = true -> fst (stop_tcpdump E quiet s) = Ok false)).
Proof.
  intros Hcur. destruct (container_running E) eqn:Hrun.
  - destruct (stop_running E quiet s Hrun Hcur) as [(e & s' & Hst & He & Hl)|(s3 & Hf & Hd & Hst)];
      rewrite Hst.
    + split; [simpl; intros e' He'; injection He' as <-; exact He|].
      split; [intros Hl'; congruence|]. intros; discriminate.
    + destruct (wb_copy E "test.pcap" s3) as (_ & _ & He & Hr).
      split; [exact He|]. split; [|intros; discriminate].
      intros Hl. assert (Hl3 : log_ready E s3 = true) by (apply (log_ready_grow E s); assumption).
      destruct (Hr Hl3) as [b Hb]. exists b. split; [exact Hb|].
      intros _ Hcase. apply copy_retrieves; [exact Hrun|exact Hl3|].
      destruct Hcase as [Hc|Hc]; [left; apply (path_exists_grow _ s); assumption|right; exact Hc].
  - unfold stop_tcpdump. rewrite bind_unfold.
    destruct (check_not_running E s Hrun) as [Hc Hnt].
    destruct (wb_check E s) as (_ & _ & He & Hr).
    destruct (check_container_running E s) as [[b|e] s1] eqn:Hch; simpl in *.
    + destruct b; [congruence|]. cbn [negb]. unfold ret. simpl.
      split; [discriminate|].
      split; [intros _; exists false; split; [reflexivity|intros; discriminate]|].
      intros _. split; [exact Hc|reflexivity].
    + split; [exact He|]. split; [intros Hl; destruct (Hr Hl); discriminate|].
      intros _. split; [exact Hc|intros Hl; destruct (Hr Hl); discriminate].
Qed.

(** A sample world: [docker ps] reports the container or not, every
    other command succeeds, and [docker cp] brings a file [PCAP]. *)
Definition sample_time : datetime := mkDatetime 2026 10 17 9 5 7.

Lemma sample_time_valid : valid_datetime sample_time.
Proof. unfold valid_datetime. simpl. lia. Qed.

Definition env_docker (up : bool) : cenv :=
  mkCEnv (fun cmd => match cmd with
                     | ["docker"; "ps"; _; _; _] =>
                         Ran (if up then "3f2a9c1d" ++ String "010" "" else "") "" 0
                     | _ => Ran "" "" 0
                     end)
         (fun _ dst f _ => (<[dst := "PCAP"]> f, ∅))
         (fun _ => true) (fun _ => true) (fun _ => true) (fun _ => O) true
         (fun _ => 4096) "/app" sample_time sample_time_valid.

(** A checkout whose [logs] directory exists. *)
Definition cfs_init : cfs := mkCfs ∅ {["/app/logs"]} [] [].

(** A checkout where [logs] is a regular file. *)
Definition cfs_logs_file : cfs := mkCfs {["/app/logs" := ""]} ∅ [] [].

Example stop_no_pointer_up :
  fst (stop_tcpdump (env_docker true) false cfs_init) = Ok true /\
  cmds (snd (stop_tcpdump (env_docker true) false cfs_init)) =
    [PS_CMD; ["docker"; "exec"; "capture_poc"; "pkill"; "-INT"; "tcpdump"];
     PS_CMD; cp_cmd "test.pcap"].
Proof. split; vm_compute; reflexivity. Qed.

(** C9, as stated, fails twice: when [docker ps] does not report the
    capture container, [stop_tcpdump] returns false right after that
    check and never tries to retrieve [test.pcap]; and when [logs] is a
    regular file, the [log] call of that branch raises. *)
Lemma stop_no_retrieve_counterexample :
  path_exists CURRENT_CAPTURE cfs_init = false /\
  stop_tcpdump (env_docker false) false cfs_init =
    (Ok false, snd (stop_tcpdump (env_docker false) false cfs_init)) /\
  ~ In (cp_cmd "test.pcap") (cmds (snd (stop_tcpdump (env_docker false) false cfs_init))) /\
  path_exists CURRENT_CAPTURE cfs_logs_file = false /\
  fst (stop_tcpdump (env_docker false) false cfs_logs_file) =
    Exc "OSError: cannot open /app/logs/capture.log".
Proof.
  split; [vm_compute; reflexivity|]. split; [vm_compute; reflexivity|].
  split.
  - assert (Hc : cmds (snd (stop_tcpdump (env_docker false) false cfs_init)) = [PS_CMD])
      by (vm_compute; reflexivity).
    rewrite Hc. intros [H|[]]. discriminate.
  - split; vm_compute; reflexivity.
Qed.

Lemma stop_without_pointer_witness :
  path_exists CURRENT_CAPTURE cfs_init = false /\
  In (cp_cmd "test.pcap") (cmds (snd (stop_tcpdump (env_docker true) false cfs_init))).
Proof.
  assert (H : path_exists CURRENT_CAPTURE cfs_init = false) by (vm_compute; reflexivity).
  split; [exact H|].
  destruct (stop_without_pointer (env_docker true) false cfs_init H) as (_ & Hr & _).
  assert (Hl : log_ready (env_docker true) cfs_init = true) by (vm_compute; reflexivity).
  destruct (Hr Hl) as (b & _ & Hin).
  apply Hin; [vm_compute; reflexivity|right; reflexivity].
Defined.


(** ** The timestamped capture name *)

Lemma is_digit_digit d : 0 <= d <= 9 -> is_digit (digit d) = true.
Proof.
  intros Hd. unfold is_digit, digit.
  rewrite Ascii.nat_ascii_embedding by lia.
  apply andb_true_intro; split; apply Nat.leb_le; lia.
Qed.

Lemma pad2_digits n : 0 <= n <= 99 ->
  exists a b, pad2 n = String a (String b EmptyString) /\
    is_digit a = true /\ is_digit b = true.
Proof.
  intros Hn. exists (digit (n / 10)), (digit (n mod 10)).
  split; [reflexivity|]. split; apply is_digit_digit; Z.div_mod_to_equations; lia.
Qed.

Lemma dec_digits y : 1000 <= y <= 9999 ->
  exists a b c d, dec y = String a (String b (String c (String d EmptyString))) /\
    is_digit a = true /\ is_digit b = true /\ is_digit c = true /\ is_digit d = true.
Proof.
  intros Hy. unfold dec. cbv [dec_aux].
  assert (H1 : (y <? 10) = false) by (apply Z.ltb_ge; lia).
  assert (H2 : (y / 10 <? 10) = false) by (apply Z.ltb_ge; Z.div_mod_to_equations; lia).
  assert (H3 : (y / 10 / 10 <? 10) = false) by (apply Z.ltb_ge; Z.div_mod_to_equations; lia).
  assert (H4 : (y / 10 / 10 / 10 <? 10) = true) by (apply Z.ltb_lt; Z.div_mod_to_equations; lia).
  rewrite H1, H2, H3, H4.
  do 4 eexists. split; [reflexivity|].
  repeat split; apply is_digit_digit; Z.div_mod_to_equations; lia.
Qed.

(** The fourteen digits of [strftime("%Y%m%d_%H%M%S")]. *)
Lemma stamp_digits t : valid_datetime t ->
  exists y1 y2 y3 y4 a1 a2 b1 b2 c1 c2 d1 d2 e1 e2,
    strftime_stamp t =
      String y1 (String y2 (String y3 (String y4 (String a1 (String a2 (String b1 (String b2
      (String "_"%char (String c1 (String c2 (String d1 (String d2 (String e1 (String e2
      EmptyString)))))))))))))) /\
    Forall (fun c => is_digit c = true) [y1; y2; y3; y4; a1; a2; b1; b2; c1; c2; d1; d2; e1; e2].
Proof.
  intros (Hy & Hmo & Hd & Hh & Hmi & Hs). unfold strftime_stamp.
  destruct (dec_digits _ Hy) as (y1 & y2 & y3 & y4 & -> & Dy1 & Dy2 & Dy3 & Dy4).
  destruct (pad2_digits (month t)) as (a1 & a2 & -> & Da1 & Da2); [lia|].
  destruct (pad2_digits (day t)) as (b1 & b2 & -> & Db1 & Db2); [lia|].
  destruct (pad2_digits (hour t)) as (c1 & c2 & -> & Dc1 & Dc2); [lia|].
  destruct (pad2_digits (minute t)) as (d1 & d2 & -> & Dd1 & Dd2); [lia|].
  destruct (pad2_digits (second t)) as (e1 & e2 & -> & De1 & De2); [lia|].
  do 14 eexists. split; [reflexivity|].
  repeat constructor; assumption.
Qed.

Lemma capture_name_pattern t : valid_datetime t ->
  is_capture_name ("capture_" ++ strftime_stamp t ++ ".pcap") = true.
Proof.
  intros Ht.
  destruct (stamp_digits t Ht) as (y1 & y2 & y3 & y4 & a1 & a2 & b1 & b2 & c1 & c2 & d1 & d2 & e1 & e2 & -> & Hd).
  repeat (apply Forall_cons in Hd as [? Hd]).
  unfold is_capture_name. simpl.
  repeat match goal with H : is_digit ?c = true |- context [is_digit ?c] => rewrite H; simpl end.
  reflexivity.
Qed.

Lemma digit_not_cr c : is_digit c = true -> Ascii.eqb c "013"%char = false.
Proof. intros H. destruct (Ascii.eqb_spec c "013"%char) as [->|]; [discriminate|reflexivity]. Qed.

(** Reading the name back in text mode changes nothing: it has no \r. *)
Lemma univ_newlines_capture_name t : valid_datetime t ->
  univ_newlines ("capture_" ++ strftime_stamp t ++ ".pcap") =
  ("capture_" ++ strftime_stamp t ++ ".pcap")%string.
Proof.
  intros Ht.
  destruct (stamp_digits t Ht) as (y1 & y2 & y3 & y4 & a1 & a2 & b1 & b2 & c1 & c2 & d1 & d2 & e1 & e2 & -> & Hd).
  repeat (apply Forall_cons in Hd as [? Hd]).
  simpl.
  repeat match goal with H : is_digit ?c = true |- context [Ascii.eqb ?c "013"%char] =>
           rewrite (digit_not_cr c H); simpl end.
  reflexivity.
Qed.

Lemma string_app_nil s : (s ++ EmptyString)%string = s.
Proof. induction s as [|c s IH]; [reflexivity|exact (f_equal (String c) IH)]. Qed.

Lemma string_app_assoc s1 s2 s3 : (s1 ++ s2 ++ s3 = (s1 ++ s2) ++ s3)%string.
Proof. induction s1 as [|c s1 IH]; [reflexivity|exact (f_equal (String c) IH)]. Qed.

Lemma rev_str_app s1 s2 acc :
  PyStr.rev_str (s1 ++ s2) acc = PyStr.rev_str s2 (PyStr.rev_str s1 acc).
Proof. revert acc. induction s1 as [|c s1 IH]; intros acc; [reflexivity|exact (IH _)]. Qed.

Lemma rev_str_rev s acc acc2 :
  PyStr.rev_str (PyStr.rev_str s acc) acc2 = PyStr.rev_str acc (s ++ acc2).
Proof.
  revert acc acc2. induction s as [|c s IH]; intros acc acc2; [reflexivity|exact (IH _ _)].
Qed.

(** [str.strip()] leaves a name [capture_...pcap] unchanged. *)
Lemma str_strip_capture_name x :
  PyStr.str_strip ("capture_" ++ x ++ ".pcap") = ("capture_" ++ x ++ ".pcap")%string.
Proof.
  unfold PyStr.str_strip, PyStr.strip_by.
  set (n := ("capture_" ++ x ++ ".pcap")%string).
  assert (Hl : PyStr.lstrip_by PyStr.is_str_space n = n) by reflexivity.
  assert (Hr : PyStr.lstrip_by PyStr.is_str_space (PyStr.rev_str n EmptyString) =
               PyStr.rev_str n EmptyString).
  { unfold n. rewrite string_app_assoc, rev_str_app. reflexivity. }
  rewrite Hl, Hr, rev_str_rev. apply string_app_nil.
Qed.

Lemma current_capture_name_written c s :
  cfiles s !! CURRENT_CAPTURE = Some c ->
  current_capture_name s = (Ok (PyStr.str_strip (univ_newlines c)), s).
Proof.
  intros Hf. unfold current_capture_name.
  rewrite (bind_of_ok _ _ s true s).
  - unfold bind, read_file, ret. rewrite Hf. reflexivity.
  - unfold exists_, gets, path_exists. rewrite Hf. reflexivity.
Qed.

Lemma run_start_cmd E iface name s r s' :
  run_cmd E (start_cmd iface name) s = (Ok r, s') ->
  cfiles s' = cfiles s /\ cmds s' = (cmds s ++ [start_cmd iface name])%list.
Proof.
  intros H. pose proof (run_cmd_records E (start_cmd iface name) s) as Hc. rewrite H in Hc.
  destruct (lf_run_cmd E (start_cmd iface name) (fun s => eq_refl)) as [_ Hf].
  destruct (Hf s) as [Hf' _]. rewrite H in Hf'. auto.
Qed.

Lemma write_file_ok E p c s u s' :
  write_file E p c s = (Ok u, s') -> cfiles s' !! p = Some c /\ cmds s' = cmds s.
Proof.
  unfold write_file. destruct (copen_ok E p); [|unfold raise; congruence].
  intros H. apply bind_cases in H as [(e & H1 & _)|(a & s1 & H1 & H2)];
    [unfold set_cfile, modify in H1; discriminate|].
  unfold set_cfile, modify in H1. injection H1 as _ <-.
  destruct (cwrite_ok E p).
  - unfold set_cfile, modify in H2. injection H2 as _ <-. simpl.
    split; [apply lookup_insert_eq|reflexivity].
  - apply bind_cases in H2 as [(e & _ & Habs)|(b & s2 & _ & H2)]; [discriminate|].
    unfold raise in H2. discriminate.
Qed.

(** What a successful [start_tcpdump] leaves behind: the start command
    was run with the resolved name and the sentinel holds that name. *)
Lemma start_ok_inv E iface pn s s' :
  start_tcpdump E iface pn s = (Ok true, s') ->
  In (start_cmd iface (resolve_pcap_name E pn)) (cmds s') /\
  cfiles s' !! CURRENT_CAPTURE = Some (resolve_pcap_name E pn).
Proof.
  intros H. unfold start_tcpdump in H.
  inv_bind H running s1 H1 H.
  destruct running; cbn [negb] in H; [|unfold ret in H; congruence].
  inv_bind H t s2 H2 H.
  destruct t; cbn [negb] in H; [|unfold ret in H; congruence].
  inv_bind H d s3 H3 H.
  destruct d; cbn [negb] in H; [|unfold ret in H; congruence].
  inv_bind H u s4 H4 H.
  inv_bind H r s5 H5 H.
  apply run_start_cmd in H5 as [_ Hc5].
  destruct r as [[o e] rc]. cbv beta iota zeta in H.
  destruct (Z.eqb rc 0); cbn [negb] in H.
  - inv_bind H v s6 H6 H.
    inv_bind H w s7 H7 H.
    unfold ret in H. injection H as <-.
    apply log_ok_frame in H6 as (_ & Hc6 & _).
    apply write_file_ok in H7 as [Hf7 Hc7].
    split; [|exact Hf7].
    rewrite Hc7, Hc6, Hc5. apply in_or_app. right. left. reflexivity.
  - inv_bind H v s6 H6 H. unfold ret in H. congruence.
Qed.

(** C10: after a successful [start_tcpdump] with output name [auto], the
    name used is [capture_] followed by [strftime("%Y%m%d_%H%M%S")] of the
    clock and [.pcap]; with a four-digit year it matches the pattern
    [capture_<8 digits>_<6 digits>.pcap]. tcpdump was started writing to
    that name, the [.current_capture] file holds exactly that name, and
    the name a later [stop_tcpdump] reads back from it (lines 160-164)
    is that name. *)
Theorem start_auto_records_name E iface s s' :
  start_tcpdump E iface "auto" s = (Ok true, s') ->
  let name := ("capture_" ++ strftime_stamp (now E) ++ ".pcap")%string in
  resolve_pcap_name E "auto" = name /\
  (valid_datetime (now E) -> is_capture_name name = true) /\
  In (start_cmd iface name) (cmds s') /\
  cfiles s' !! CURRENT_CAPTURE = Some name /\
  current_capture_name s' = (Ok name, s').
Proof.
  intros H name.
  assert (Hn : resolve_pcap_name E "auto" = name) by reflexivity.
  destruct (start_ok_inv E iface "auto" s s' H) as [Hin Hf]. rewrite Hn in Hin, Hf.
  split; [exact Hn|]. split; [apply capture_name_pattern|].
  split; [exact Hin|]. split; [exact Hf|].
  rewrite (current_capture_name_written name s' Hf).
  unfold name. rewrite (univ_newlines_capture_name _ (now_valid E)), str_strip_capture_name.
  reflexivity.
Qed.

Lemma start_auto_records_name_witness :
  exists s', start_tcpdump (env_docker true) "eth0" "auto" cfs_init = (Ok true, s') /\
    cfiles s' !! CURRENT_CAPTURE = Some "capture_20261017_090507.pcap".
Proof.
  exists (snd (start_tcpdump (env_docker true) "eth0" "auto" cfs_init)).
  assert (H : start_tcpdump (env_docker true) "eth0" "auto" cfs_init =
              (Ok true, snd (start_tcpdump (env_docker true) "eth0" "auto" cfs_init)))
    by (vm_compute; reflexivity).
  split; [exact H|].
  destruct (start_auto_records_name _ _ _ _ H) as (_ & _ & _ & Hf & _).
  exact Hf.
Defined.

End CaptureFacts.

(* ================================================================== *)
(** * capture.py: the captures directory *)
Module CaptureExtra.
Import Py PyFacts Capture CaptureFacts.

(** Once [ensure_capture_dir] has returned true, a second call (in any
    environment) returns true and changes nothing. *)
Theorem ensure_capture_dir_idempotent E s s1 :
  ensure_capture_dir E s = (Ok true, s1) ->
  path_exists CAPTURES_DIR s1 = true /\
  forall E', ensure_capture_dir E' s1 = (Ok true, s1).
Proof.
  intros H.
  assert (Hp : path_exists CAPTURES_DIR s1 = true).
  { unfold ensure_capture_dir in H.
    rewrite (bind_of_ok _ _ s (path_exists CAPTURES_DIR s) s) in H by reflexivity.
    cbv beta in H. destruct (path_exists CAPTURES_DIR s) eqn:He.
    - unfold ret in H. injection H as <-. exact He.
    - unfold try_except in H. cbv beta iota in H.
      match type of H with
      | match ?t with _ => _ end = _ => destruct t as [[a|e] s2] eqn:Hb
      end.
      + injection H as _ <-.
        apply bind_cases in Hb as [(e & _ & Habs)|(u & s3 & Hm & Hb)]; [discriminate|].
        unfold makedirs in Hm. destruct (cmkdir_ok E CAPTURES_DIR); [|unfold raise in Hm; discriminate].
        unfold modify in Hm. injection Hm as _ <-.
        apply bind_cases in Hb as [(e & _ & Habs)|(v & s4 & Hl & Hr)]; [discriminate|].
        unfold ret in Hr. injection Hr as _ <-.
        apply log_ok_frame in Hl as (Hf & _ & Hd).
        apply (path_exists_grow _ _ _ Hf Hd). apply path_exists_dir. simpl. set_solver.
      + apply bind_cases in H as [(e' & _ & Habs)|(v & s4 & _ & Hr)]; [discriminate|].
        unfold ret in Hr. congruence. }
  split; [exact Hp|]. intros E'.
  unfold ensure_capture_dir.
  rewrite (bind_of_ok _ _ s1 (path_exists CAPTURES_DIR s1) s1) by reflexivity.
  cbv beta. rewrite Hp. reflexivity.
Qed.

Lemma ensure_capture_dir_idempotent_witness :
  ensure_capture_dir (env_docker true) cfs_init =
    (Ok true, snd (ensure_capture_dir (env_docker true) cfs_init)) /\
  path_exists CAPTURES_DIR (snd (ensure_capture_dir (env_docker true) cfs_init)) = true /\
  ensure_capture_dir (env_docker false) (snd (ensure_capture_dir (env_docker true) cfs_init)) =
    (Ok true, snd (ensure_capture_dir (env_docker true) cfs_init)).
Proof.
  assert (H : ensure_capture_dir (env_docker true) cfs_init =
                (Ok true, snd (ensure_capture_dir (env_docker true) cfs_init)))
    by (vm_compute; reflexivity).
  split; [exact H|].
  destruct (ensure_capture_dir_idempotent _ _ _ H) as [Hp He].
  split; [exact Hp|]. apply He.
Defined.

End CaptureExtra.
(* ================================================================== *)
(** * test_all_proxies.py: the overall summary and failing runs *)
Module TestAllProxiesExtra.
Import TestAllProxies TestAllProxiesFacts.

Lemma proxy_is_entry E q h n : proxy_is n (test_entry E q h) = String.eqb (p_name q) n.
Proof. unfold test_entry. destruct (curl E _ h); reflexivity. Qed.

Lemma filter_entries E q hosts n :
  List.filter (proxy_is n) (map (test_entry E q) hosts) =
  if String.eqb (p_name q) n then map (test_entry E q) hosts else [].
Proof.
  induction hosts as [|h hs IH]; simpl; [destruct (String.eqb _ _); reflexivity|].
  rewrite proxy_is_entry, IH. destruct (String.eqb (p_name q) n); reflexivity.
Qed.

Lemma filter_flat_map_absent E hosts ps n :
  ~ In n (map p_name ps) ->
  List.filter (proxy_is n) (flat_map (fun p => map (test_entry E p) hosts) ps) = [].
Proof.
  induction ps as [|q ps IH]; simpl; intros Hn; [reflexivity|].
  rewrite List.filter_app, filter_entries, IH by tauto.
  destruct (String.eqb_spec (p_name q) n); [tauto|reflexivity].
Qed.

(** With distinct profile names, the overall summary line for a profile
    reports the same counts as the line logged right after testing it:
    the successes among its own results, out of one test per host. *)
Theorem overall_summary_matches E ps hosts rep rs p :
  run_all_tests E ps hosts = Some (rep, rs) ->
  NoDup (map p_name ps) -> In p ps ->
  test_proxy E hosts p = Some (map (test_entry E p) hosts) /\
  proxy_summary (p_name p) rs = (count_success (map (test_entry E p) hosts), length hosts).
Proof.
  intros Hrun Hnd Hin.
  destruct (run_all_tests_some E ps hosts rep rs Hrun) as [Hc _].
  split.
  { clear Hrun Hnd. revert rs Hc. induction ps as [|q ps IH]; intros rs Hc; [destruct Hin|].
    simpl in Hc. destruct (test_proxy E hosts q) as [b|] eqn:Hq; [|discriminate].
    destruct Hin as [<-|Hin].
    - rewrite Hq. f_equal. apply (test_proxy_some E hosts q b Hq).
    - destruct (collect E hosts ps) as [rest|]; [|discriminate]. apply (IH Hin rest eq_refl). }
  apply collect_some in Hc. subst rs. unfold proxy_summary.
  assert (Hf : List.filter (proxy_is (p_name p)) (flat_map (fun p0 => map (test_entry E p0) hosts) ps)
               = map (test_entry E p) hosts).
  { clear Hrun. induction ps as [|q ps IH]; [destruct Hin|]. simpl in Hnd |- *.
    apply NoDup_cons in Hnd as [Hq Hnd]. rewrite list_elem_of_In in Hq.
    rewrite List.filter_app, filter_entries.
    destruct Hin as [<-|Hin].
    - rewrite String.eqb_refl, filter_flat_map_absent by exact Hq. apply app_nil_r.
    - destruct (String.eqb_spec (p_name q) (p_name p)) as [Heq|Hne].
      + exfalso. apply Hq. rewrite Heq. apply in_map, Hin.
      + apply IH; assumption. }
  rewrite Hf, length_map. reflexivity.
Qed.

(** [run_all_tests] fails exactly when the report cannot be written or
    some profile is neither [direct] nor in [port_mapping] (its [KeyError]
    aborts the whole run); [main] then exits with 1 unless called with
    [--help]. *)
Theorem run_all_tests_none E ps hosts argv :
  (run_all_tests E ps hosts = None <->
   report_write_ok E = false \/
   exists p, In p ps /\ p_name p <> "direct" /\ port_mapping (p_name p) = None) /\
  (head argv <> Some "--help" -> run_all_tests E ps hosts = None -> main E argv ps hosts = 1).
Proof.
  assert (Hcol : collect E hosts ps = None <->
                 exists p, In p ps /\ p_name p <> "direct" /\ port_mapping (p_name p) = None).
  { induction ps as [|q ps IH]; simpl.
    - split; [discriminate|intros (p & [] & _)].
    - unfold test_proxy at 1. destruct (String.eqb_spec (p_name q) "direct") as [Hd|Hd];
        [|destruct (port_mapping (p_name q)) as [z|] eqn:Hpm].
      1,2: destruct (collect E hosts ps) as [rest|];
        (split; [intros H; try discriminate; destruct IH as [IH _];
                 destruct (IH H) as (p & Hp & H1 & H2); exists p; auto|]);
        [intros (p & [<-|Hp] & H1 & H2); [congruence|]; destruct IH as [_ IH];
         specialize (IH (ex_intro _ p (conj Hp (conj H1 H2)))); discriminate
        |intros _; reflexivity].
      + split; [intros _; exists q; auto|reflexivity]. }
  split.
  - unfold run_all_tests. destruct (collect E hosts ps) as [rs|] eqn:Hc.
    + destruct (report_write_ok E).
      * split; [discriminate|]. intros [H|H]; [discriminate|]. apply Hcol in H. discriminate.
      * split; [intros _; left; reflexivity|reflexivity].
    + split; [intros _; right; apply Hcol; reflexivity|reflexivity].
  - intros Hh Hn. unfold main. rewrite Hn.
    destruct argv as [|a rest]; [reflexivity|].
    simpl in Hh. destruct (String.eqb_spec a "--help") as [->|Ha]; [congruence|].
    destruct a as [|c a]; [reflexivity|].
    repeat (match goal with
            | |- context [match ?c with Ascii _ _ _ _ _ _ _ _ => _ end] => destruct c
            | |- context [if ?b then _ else _] => destruct b
            | |- context [match ?a with EmptyString => _ | String _ _ => _ end] => destruct a
            end); try reflexivity; congruence.
Qed.


Lemma overall_summary_matches_witness :
  run_all_tests env_one_fail PROXIES TWO_HOSTS =
    Some (fst (match run_all_tests env_one_fail PROXIES TWO_HOSTS with
               | Some x => x | None => (JNull, []) end),
          snd (match run_all_tests env_one_fail PROXIES TWO_HOSTS with
               | Some x => x | None => (JNull, []) end)) /\
  NoDup (map p_name PROXIES) /\
  proxy_summary "squid" (snd (match run_all_tests env_one_fail PROXIES TWO_HOSTS with
                              | Some x => x | None => (JNull, []) end)) = (1%nat, 2%nat).
Proof.
  assert (H : run_all_tests env_one_fail PROXIES TWO_HOSTS =
    Some (fst (match run_all_tests env_one_fail PROXIES TWO_HOSTS with
               | Some x => x | None => (JNull, []) end),
          snd (match run_all_tests env_one_fail PROXIES TWO_HOSTS with
               | Some x => x | None => (JNull, []) end))) by (vm_compute; reflexivity).
  assert (Hnd : NoDup (map p_name PROXIES)).
  { apply (bool_decide_unpack _). vm_compute. exact I. }
  assert (Hin : In (mkProfile "squid"
                      (Some [("http_proxy", "http://squid_poc:3128");
                             ("https_proxy", "http://squid_poc:3128")])
                      None "Squid proxy with SSL bump") PROXIES) by (right; left; reflexivity).
  split; [exact H|]. split; [exact Hnd|].
  destruct (overall_summary_matches _ _ _ _ _ _ H Hnd Hin) as [_ Hs].
  exact Hs.
Defined.

(** A profile list with a name [port_mapping] does not know. *)
Definition TOR_PROFILE : profile := mkProfile "tor" None None "Tor SOCKS proxy".

Lemma run_all_tests_none_witness :
  run_all_tests env_all_ok [TOR_PROFILE] TWO_HOSTS = None /\
  main env_all_ok [] [TOR_PROFILE] TWO_HOSTS = 1.
Proof.
  destruct (run_all_tests_none env_all_ok [TOR_PROFILE] TWO_HOSTS []) as [Hiff Hmain].
  assert (Hn : run_all_tests env_all_ok [TOR_PROFILE] TWO_HOSTS = None).
  { apply Hiff. right. exists TOR_PROFILE.
    split; [left; reflexivity|]. split; [discriminate|reflexivity]. }
  split; [exact Hn|]. apply Hmain; [discriminate|exact Hn].
Defined.

End TestAllProxiesExtra.
